(** * AI Flashcard Distiller: placement, sanitation and commit pipeline

    A shallow embedding of [main.ts] of the Obsidian plugin
    "AI Flashcard Distiller" and the properties its specification states.

    The plugin is orchestration code over two collaborators, the Obsidian
    vault and the AI-providers service.  Its own logic is embedded as
    executable functions; every call into a collaborator is an [action] of
    a small free monad, so that theorems can quantify over every possible
    behaviour of the host, and a reference in-memory vault ([MemHost])
    gives the host calls a concrete meaning where a property speaks about
    the stored artifact.

    Revisions.  The sources hold three revisions of [main.ts].  They
    differ in the text of the default prompt, and the first one has no
    tag-marker step in the sanitation of the response; the embedding
    follows the two that have it and keeps the first as [sanitize_rev1].

    Strings.  A JavaScript string is a sequence of UTF-16 code units.  The
    embedding uses [string] and reads each [ascii] as the code unit of the
    same number (U+0000 to U+00FF).  White space, for [trim] and for the
    regular-expression class [\s], is therefore 9-13, 32 and 160.  The
    bullet in two notice texts is carried as the bytes of its UTF-8 form;
    no property depends on the text of a notice. *)

From Stdlib Require Import String Ascii Bool List ZArith Lia.
From stdpp Require Import base option strings gmap pretty.
Import ListNotations.

Local Open Scope string_scope.

(** ** JavaScript string primitives used by the plugin *)

Module JsString.

(** [s.startsWith(pre)] *)
Fixpoint startsWith (s pre : string) {struct pre} : bool :=
  match pre with
  | EmptyString => true
  | String p pre' =>
      match s with
      | EmptyString => false
      | String c s' => Ascii.eqb c p && startsWith s' pre'
      end
  end.

(** [s.replace(/suf$/, "")] for a literal [suf]: the pattern is anchored
    at the end of the input, so the only possible match is the suffix. *)
Fixpoint replace_suffix (suf s : string) : string :=
  if String.eqb s suf then EmptyString
  else match s with
       | EmptyString => EmptyString
       | String c s' => String c (replace_suffix suf s')
       end.

(** White space of ECMAScript ([WhiteSpace] and [LineTerminator]) among
    the code units below 256: TAB, LF, VT, FF, CR, SP and NBSP. *)
Definition is_space (c : ascii) : bool :=
  let n := nat_of_ascii c in
  (Nat.leb 9 n && Nat.leb n 13) || Nat.eqb n 32 || Nat.eqb n 160.

(** [s.trimStart()] *)
Fixpoint trimStart (s : string) : string :=
  match s with
  | EmptyString => EmptyString
  | String c s' => if is_space c then trimStart s' else s
  end.

(** [s.trimEnd()] *)
Fixpoint trimEnd (s : string) : string :=
  match s with
  | EmptyString => EmptyString
  | String c s' =>
      match trimEnd s' with
      | EmptyString => if is_space c then EmptyString else String c EmptyString
      | t => String c t
      end
  end.

(** [s.trim()] *)
Definition trim (s : string) : string := trimEnd (trimStart s).

(** [s.substring(n)] for [0 <= n] *)
Fixpoint substring_from (n : nat) (s : string) : string :=
  match n, s with
  | O, _ => s
  | S n', String _ s' => substring_from n' s'
  | S _, EmptyString => EmptyString
  end.

(** [s.split("/")]: the segments between the separators; the empty
    string splits into one empty segment. *)
Fixpoint split_slash_go (cur : string) (s : string) : list string :=
  match s with
  | EmptyString => [cur]
  | String c s' =>
      if Ascii.eqb c "/" then cur :: split_slash_go EmptyString s'
      else split_slash_go (cur ++ String c EmptyString) s'
  end.
Definition split_slash (s : string) : list string := split_slash_go EmptyString s.

(** [a.slice(0, -1)] *)
Definition slice_0_m1 {A} (l : list A) : list A := removelast l.

(** [a.join("/")] *)
Definition join_slash (l : list string) : string := String.concat "/" l.

(** The line feed, [\n] in the source's string literals. *)
Definition LF : string := String (ascii_of_nat 10) EmptyString.

(** A string in a boolean position: only the empty string is falsy. *)
Definition truthy (s : string) : bool := negb (String.eqb s EmptyString).

(** Canonicalisation of the [i] flag (no [u] flag): a code unit is
    compared through its upper-case form, and a code unit of 128 or more
    never canonicalises to one below 128.  For the ASCII patterns of this
    program it is enough to fold [a-z] onto [A-Z]. *)
Definition canonicalize (c : ascii) : ascii :=
  let n := nat_of_ascii c in
  if Nat.leb 97 n && Nat.leb n 122 then ascii_of_nat (n - 32) else c.

(** [pre] matches at the start of [s] under the [i] flag. *)
Fixpoint startsWith_ci (s pre : string) {struct pre} : bool :=
  match pre with
  | EmptyString => true
  | String p pre' =>
      match s with
      | EmptyString => false
      | String c s' =>
          Ascii.eqb (canonicalize c) (canonicalize p) && startsWith_ci s' pre'
      end
  end.

(** A string with every code unit canonicalised, and the test that a
    string is white space only. *)
Fixpoint fold_case (s : string) : string :=
  match s with
  | EmptyString => EmptyString
  | String c s' => String (canonicalize c) (fold_case s')
  end.

Fixpoint all_space (s : string) : bool :=
  match s with
  | EmptyString => true
  | String c s' => is_space c && all_space s'
  end.

(** The remainder of [s] after the first place where [pat] matches under
    the [i] flag: what a lazy [[\s\S]*?] followed by [pat] consumes. *)
Fixpoint after_first_ci (pat s : string) : option string :=
  if startsWith_ci s pat then Some (substring_from (String.length pat) s)
  else match s with
       | EmptyString => None
       | String _ s' => after_first_ci pat s'
       end.

(** The remainder of [s] after the last place where [pat] matches: what a
    greedy [[\s\S]*] followed by [pat] would consume. *)
Fixpoint after_last_ci (pat s : string) : option string :=
  let here :=
    if startsWith_ci s pat then Some (substring_from (String.length pat) s)
    else None in
  match s with
  | EmptyString => here
  | String _ s' =>
      match after_last_ci pat s' with
      | Some r => Some r
      | None => here
      end
  end.

End JsString.
Import JsString.

(** ** Settings and files *)

Record Settings := {
  flashcardRoot : string;
  flashcardTag : string;
  selectedProviderId : string;
  systemPrompt : string;
  excludedFolders : list string;
  fileHeader : string;
}.

(** [DEFAULT_SETTINGS]; the three revisions of the plugin differ only in
    the text of the default prompt, which is taken as a parameter. *)
Definition DEFAULT_SETTINGS (prompt : string) : Settings := {|
  flashcardRoot := "Flashcards";
  flashcardTag := "flashcards";
  selectedProviderId := "";
  systemPrompt := prompt;
  excludedFolders := ["Templates"];
  fileHeader := "";
|}.

(** Obsidian's [TFile], with the fields the plugin reads. *)
Record TFile := {
  path : string;
  basename : string;
  extension : string;
}.

(** ** Placement resolver *)

(** [shouldSkipFile(file)] *)
Definition shouldSkipFile (settings : Settings) (file : TFile) : bool :=
  let root := replace_suffix "/" (flashcardRoot settings) in
  if startsWith (path file) (root ++ "/") || String.eqb (path file) root then true
  else
    existsb
      (fun folder =>
         let clean := replace_suffix "/" folder in
         String.eqb (path file) clean || startsWith (path file) (clean ++ "/"))
      (excludedFolders settings).

(** The relation the specification tests paths with: [p] is the folder
    itself or lies below it, on whole path segments. *)
Definition nestedUnder (folder p : string) : Prop :=
  p = folder \/ exists rest, p = folder ++ "/" ++ rest.

(** The first two statements of [saveFlashcards]: the mirrored path. *)
Definition targetPath (settings : Settings) (original : TFile) : string :=
  let root := replace_suffix "/" (flashcardRoot settings) in
  root ++ "/" ++ path original.

(** [targetPath.split("/").slice(0, -1).join("/")] *)
Definition folderPath (settings : Settings) (original : TFile) : string :=
  join_slash (slice_0_m1 (split_slash (targetPath settings original))).

(** ** Response sanitation *)

(** [text.replace(/^<think>[\s\S]*?<\/think>\s*/i, "")]: the match is
    anchored at index 0, the lazy body stops at the first closing tag at
    index 7 or later, and [\s*] takes all the white space that follows.
    Without a match the text is returned as it is. *)
Definition stripThink (text : string) : string :=
  if startsWith_ci text "<think>" then
    match after_first_ci "</think>" (substring_from 7 text) with
    | Some rest => trimStart rest
    | None => text
    end
  else text.

(** Lines 149-153 of [generateFlashcards] (second and third revision):
    [[
      let clean = text.replace(/^<think>[\s\S]*?<\/think>\s*/i, "").trim();
      const baseTag = `#${this.settings.flashcardTag}`;
      if (clean.startsWith(baseTag)) {
          clean = clean.substring(baseTag.length).trim();
      }
    ]] *)
Definition sanitize (settings : Settings) (text : string) : string :=
  let clean := trim (stripThink text) in
  let baseTag := "#" ++ flashcardTag settings in
  if startsWith clean baseTag
  then trim (substring_from (String.length baseTag) clean)
  else clean.

(** The first revision of the file has only
    [const clean = text.replace(...).trim()]. *)
Definition sanitize_rev1 (text : string) : string := trim (stripThink text).

(** Sanitation as the specification words it, for comparison with
    [sanitize]: a greedy removal of a leading think span and the white
    space after it, then removal of a leading bare tag marker, then trim. *)
Definition stripThink_greedy (text : string) : string :=
  if startsWith_ci text "<think>" then
    match after_last_ci "</think>" (substring_from 7 text) with
    | Some rest => trimStart rest
    | None => text
    end
  else text.

Definition sanitize_spec (tagLabel : string) (text : string) : string :=
  let t1 := stripThink_greedy text in
  let baseTag := "#" ++ tagLabel in
  let t2 := if startsWith t1 baseTag
            then substring_from (String.length baseTag) t1 else t1 in
  trim t2.

(** ** JavaScript values returned by the generation service

    [ai.execute] is typed to return [any].  The embedding covers the
    JSON-shaped values and [undefined]; numbers are the integers (below
    2^53 in magnitude, where [String] prints plain decimals), and an
    object is the list of its own properties in insertion order, with
    distinct keys that are not array indices.  [representable], below,
    is this domain as a test; what a statement says of the printed form
    of a number or of the order of a dump is said of such values. *)

#[local] Set Warnings "-register-all".

Inductive JsValue : Type :=
| JUndefined
| JNull
| JBool (b : bool)
| JNumber (z : Z)
| JString (s : string)
| JArray (items : list JsValue)
| JObject (fields : list (string * JsValue)).

(** [typeof v] *)
Definition js_typeof (v : JsValue) : string :=
  match v with
  | JUndefined => "undefined"
  | JNull => "object"
  | JBool _ => "boolean"
  | JNumber _ => "number"
  | JString _ => "string"
  | JArray _ => "object"
  | JObject _ => "object"
  end.

(** [ToBoolean(v)] *)
Definition js_truthy (v : JsValue) : bool :=
  match v with
  | JUndefined => false
  | JNull => false
  | JBool b => b
  | JNumber z => negb (Z.eqb z 0)
  | JString s => truthy s
  | JArray _ => true
  | JObject _ => true
  end.

(** [a || b] *)
Definition js_or (a b : JsValue) : JsValue := if js_truthy a then a else b.

(** [v.key] for a property name that is not on any prototype. *)
Fixpoint js_lookup (key : string) (fields : list (string * JsValue)) : JsValue :=
  match fields with
  | [] => JUndefined
  | (k, v) :: rest => if String.eqb k key then v else js_lookup key rest
  end.

Definition js_get (v : JsValue) (key : string) : JsValue :=
  match v with
  | JObject fields => js_lookup key fields
  | _ => JUndefined
  end.

(** [String(v)] *)
Fixpoint js_String (v : JsValue) : string :=
  match v with
  | JUndefined => "undefined"
  | JNull => "null"
  | JBool b => if b then "true" else "false"
  | JNumber z => pretty z
  | JString s => s
  | JArray items =>
      String.concat ","
        (map (fun x => match x with
                       | JUndefined | JNull => EmptyString
                       | _ => js_String x
                       end) items)
  | JObject _ => "[object Object]"
  end.

(** The double quote and the backslash, as one-character strings. *)
Definition DQUOTE : string := String (ascii_of_nat 34) EmptyString.
Definition BACKSLASH : string := String (ascii_of_nat 92) EmptyString.

Definition hex_digit (n : nat) : string :=
  match String.get n "0123456789abcdef" with
  | Some c => String c EmptyString
  | None => EmptyString
  end.

(** One code unit inside [QuoteJSONString]. *)
Definition json_escape (c : ascii) : string :=
  let n := nat_of_ascii c in
  if Nat.eqb n 8 then BACKSLASH ++ "b"
  else if Nat.eqb n 9 then BACKSLASH ++ "t"
  else if Nat.eqb n 10 then BACKSLASH ++ "n"
  else if Nat.eqb n 12 then BACKSLASH ++ "f"
  else if Nat.eqb n 13 then BACKSLASH ++ "r"
  else if Nat.eqb n 34 then BACKSLASH ++ DQUOTE
  else if Nat.eqb n 92 then BACKSLASH ++ BACKSLASH
  else if Nat.ltb n 32 then BACKSLASH ++ "u00" ++ hex_digit (n / 16) ++ hex_digit (n mod 16)
  else String c EmptyString.

Fixpoint json_escape_all (s : string) : string :=
  match s with
  | EmptyString => EmptyString
  | String c s' => json_escape c ++ json_escape_all s'
  end.

Definition json_quote (s : string) : string := DQUOTE ++ json_escape_all s ++ DQUOTE.

(** [SerializeJSONProperty] with the gap of two spaces; [None] stands for
    [undefined], which an object leaves out and an array prints as null. *)
Fixpoint json_serialize (indent : string) (v : JsValue) : option string :=
  let stepback := indent in
  let indent := indent ++ "  " in
  let separator := "," ++ LF ++ indent in
  match v with
  | JUndefined => None
  | JNull => Some "null"
  | JBool b => Some (if b then "true" else "false")
  | JNumber z => Some (pretty z)
  | JString s => Some (json_quote s)
  | JArray items =>
      let partial :=
        map (fun x => match json_serialize indent x with
                      | Some str => str
                      | None => "null"
                      end) items in
      match partial with
      | [] => Some "[]"
      | _ => Some ("[" ++ LF ++ indent ++ String.concat separator partial
                   ++ LF ++ stepback ++ "]")
      end
  | JObject fields =>
      let partial :=
        flat_map (fun kv => match kv with
                            | (k, x) =>
                                match json_serialize indent x with
                                | Some str => [json_quote k ++ ": " ++ str]
                                | None => []
                                end
                            end) fields in
      match partial with
      | [] => Some "{}"
      | _ => Some ("{" ++ LF ++ indent ++ String.concat separator partial
                   ++ LF ++ stepback ++ "}")
      end
  end.

(** [JSON.stringify(v, null, 2)] *)
Definition JSON_stringify_2 (v : JsValue) : option string :=
  json_serialize EmptyString v.

(** ** The values the embedding represents exactly

    [String] and [JSON.stringify] print a number in plain decimal digits
    when it is a safe integer (magnitude at most 2^53 - 1); beyond that
    the digits are those of the nearest double, and from 10^21 on the
    form has an exponent.  An object enumerates its keys in insertion
    order except for the keys that are decimal numerals (the array
    indices are among them), which come first in numeric order; and no
    object has one key twice. *)
Definition MAX_SAFE_INTEGER : Z := 2 ^ 53 - 1.

Definition safe_integer (z : Z) : bool := Z.leb (Z.abs z) MAX_SAFE_INTEGER.

Definition is_digit (c : ascii) : bool :=
  Nat.leb 48 (nat_of_ascii c) && Nat.leb (nat_of_ascii c) 57.

Fixpoint all_digits (s : string) : bool :=
  match s with
  | EmptyString => true
  | String c s' => is_digit c && all_digits s'
  end.

(** The decimal numeral of a natural number: digits only, and no leading
    zero unless it is "0" itself. *)
Definition is_index_key (k : string) : bool :=
  match k with
  | EmptyString => false
  | String c rest =>
      all_digits k && (negb (Nat.eqb (nat_of_ascii c) 48) || String.eqb rest EmptyString)
  end.

Fixpoint distinct (keys : list string) : bool :=
  match keys with
  | [] => true
  | k :: rest => negb (existsb (String.eqb k) rest) && distinct rest
  end.

Fixpoint representable (v : JsValue) : bool :=
  match v with
  | JUndefined | JNull | JBool _ | JString _ => true
  | JNumber z => safe_integer z
  | JArray items => forallb representable items
  | JObject fields =>
      distinct (map fst fields)
      && forallb (fun kv => match kv with
                            | (k, x) => negb (is_index_key k) && representable x
                            end) fields
  end.

(** [extractResponseText(raw, accumulated)]; [None] is [null]. *)
Definition extractResponseText (raw : JsValue) (accumulated : string) : option string :=
  let otherwise :=
    if Nat.ltb 0 (String.length accumulated) then Some accumulated
    else if js_truthy raw && String.eqb (js_typeof raw) "object" then
      let text :=
        js_or (js_or (js_or (js_or (js_or (js_get raw "text") (js_get raw "content"))
                                   (js_get raw "message"))
                            (js_get raw "response"))
                     (js_get raw "data"))
              (js_get raw "result") in
      match text with
      | JString s => Some s
      | _ => JSON_stringify_2 raw
      end
    else if js_truthy raw then Some (js_String raw) else None in
  match raw with
  | JString s => if Nat.ltb 0 (String.length s) then Some s else otherwise
  | _ => otherwise
  end.

(** The same step as the specification words it, for comparison: the
    first non-empty string among the probe fields, a dump for an object
    without one, the stringification of any other non-null value. *)
Definition probe_fields : list string :=
  ["text"; "content"; "message"; "response"; "data"; "result"].

Definition first_nonempty_string (raw : JsValue) : option string :=
  List.find truthy
    (flat_map (fun key => match js_get raw key with
                          | JString s => [s]
                          | _ => []
                          end) probe_fields).

Definition extract_spec (raw : JsValue) (accumulated : string) : option string :=
  match raw with
  | JString (String _ _ as s) => Some s
  | _ =>
      if truthy accumulated then Some accumulated
      else match raw with
           | JArray _ | JObject _ =>
               match first_nonempty_string raw with
               | Some s => Some s
               | None => JSON_stringify_2 raw
               end
           | JNull | JUndefined => None
           | _ => Some (js_String raw)
           end
  end.

(** What the chain of [||] over the probe fields evaluates to: the first
    truthy field value, and the value of the last field, [result], when
    none is truthy. *)
Definition first_truthy_probe (raw : JsValue) : JsValue :=
  match List.find js_truthy (map (js_get raw) probe_fields) with
  | Some v => v
  | None => js_get raw "result"
  end.

(** ** The collaborators, as actions of a free monad *)

(** A thrown value; [String(err)] of an [Error] is built from these. *)
Record JsError := {
  error_name : string;
  message : string;
}.

Definition error_String (err : JsError) : string :=
  if String.eqb (message err) EmptyString then error_name err
  else if String.eqb (error_name err) EmptyString then message err
  else error_name err ++ ": " ++ message err.

(** The result of awaiting a promise: its value, or the rejection. *)
Inductive result (A : Type) : Type :=
| Ok (a : A)
| Throw (err : JsError).
Arguments Ok {A} a.
Arguments Throw {A} err.

Record IAIProvider := {
  id : string;
  name : string;
}.

(** The service handle: [ai.providers] and
    [(ai as any).plugin?.settings?.aiProviders?.main]. *)
Record IAIProvidersService := {
  providers : list IAIProvider;
  mainId : JsValue;
}.

(** What one call of [ai.execute] does before it settles: the [total]
    arguments of its [onProgress] calls, in order, and the resolved value. *)
Record ExecReply := {
  progress : list string;
  value : JsValue;
}.

(** What [getAbstractFileByPath] returns: a [TFile], a [TFolder], or null. *)
Inductive TAbstractFile : Type :=
| IsTFile (file : TFile)
| IsTFolder
| IsNull.

Inductive action : Type :=
| VaultRead (file : TFile)
| AdapterExists (p : string)
| VaultCreateFolder (p : string)
| VaultGetAbstractFileByPath (p : string)
| VaultModify (file : TFile) (data : string)
| VaultCreate (p : string) (data : string)
| AppAiProviders
| WaitForAI
| AiExecute (provider : IAIProvider) (prompt : string)
| NewNotice (text : string)
| ConsoleWarn (text : string) (raw : JsValue) (accumulatedText : string)
| ConsoleError (text : string) (err : JsError).

Definition reply (a : action) : Type :=
  match a with
  | VaultRead _ => result string
  | AdapterExists _ => result bool
  | VaultCreateFolder _ => result unit
  | VaultGetAbstractFileByPath _ => TAbstractFile
  | VaultModify _ _ => result unit
  | VaultCreate _ _ => result unit
  | AppAiProviders => option IAIProvidersService
  | WaitForAI => result IAIProvidersService
  | AiExecute _ _ => result ExecReply
  | NewNotice _ => unit
  | ConsoleWarn _ _ _ => unit
  | ConsoleError _ _ => unit
  end.

(** A program: a tree of host calls, each continued on the host's reply. *)
Inductive Prog (A : Type) : Type :=
| Ret (a : A)
| Vis (act : action) (k : reply act -> Prog A).
Arguments Ret {A} a.
Arguments Vis {A} act k.

Fixpoint bind {A B} (m : Prog A) (f : A -> Prog B) : Prog B :=
  match m with
  | Ret a => f a
  | Vis act k => Vis act (fun r => bind (k r) f)
  end.

Definition call (act : action) : Prog (reply act) := Vis act Ret.

(** [await] inside an async body: a rejection leaves the body. *)
Definition await {A B} (m : Prog (result A)) (f : A -> Prog (result B)) : Prog (result B) :=
  bind m (fun r => match r with
                   | Ok a => f a
                   | Throw err => Ret (Throw err)
                   end).

(** [try { body } catch (err) { handler }] *)
Definition try_catch {A} (body : Prog (result A)) (handler : JsError -> Prog A) : Prog A :=
  bind body (fun r => match r with
                      | Ok a => Ret a
                      | Throw err => handler err
                      end).

Declare Scope prog_scope.
Delimit Scope prog_scope with prog.
Notation "'let*' x ':=' m 'in' f" := (bind m (fun x => f))
  (at level 10, x pattern, m at level 100, f at level 200)
  : prog_scope.
Notation "'await!' x ':=' m 'in' f" := (await m (fun x => f))
  (at level 10, x pattern, m at level 100, f at level 200)
  : prog_scope.
Local Open Scope prog_scope.

(** ** Distillation orchestrator *)

(** The terminal state of one invocation.  The source returns nothing;
    each return statement is labelled with the state the specification
    names for it, and the catch clause with the error it reports. *)
Inductive FailReason : Type :=
| ProviderUnavailable
| NoProvider
| EmptyResponse
| EmptyAfterSanitize
| Caught (err : JsError).

Inductive Outcome : Type :=
| Skipped
| Failed (why : FailReason)
| Done.

(** [getAIProviders()] *)
Definition getAIProviders : Prog (option IAIProvidersService) :=
  let* ai := call AppAiProviders in
  match ai with
  | Some ai => Ret (Some ai)
  | None =>
      let* r := call WaitForAI in
      match r with
      | Ok ai => Ret (Some ai)
      | Throw _ => Ret None
      end
  end.

(** [p.id === v] *)
Definition id_is (v : JsValue) (p : IAIProvider) : bool :=
  match v with
  | JString s => String.eqb (id p) s
  | _ => false
  end.

(** [selectProvider(ai)] *)
Definition selectProvider (settings : Settings) (ai : IAIProvidersService)
  : option IAIProvider :=
  let configured :=
    if truthy (selectedProviderId settings)
    then List.find (id_is (JString (selectedProviderId settings))) (providers ai)
    else None in
  match configured with
  | Some found => Some found
  | None =>
      let main :=
        if js_truthy (mainId ai)
        then List.find (id_is (mainId ai)) (providers ai)
        else None in
      match main with
      | Some found => Some found
      | None => head (providers ai)
      end
  end.

(** The tag line and the composed text of [saveFlashcards]. *)
Definition tagLine (settings : Settings) (original : TFile) : string :=
  "#" ++ flashcardTag settings ++ "/" ++ replace_suffix ".md" (path original).

Definition finalContent (settings : Settings) (original : TFile) (content : string)
  : string :=
  let tag := tagLine settings original in
  let textToSave := tag ++ LF ++ LF in
  let textToSave :=
    if truthy (trim (fileHeader settings))
    then textToSave ++ trim (fileHeader settings) ++ LF ++ LF
    else textToSave in
  textToSave ++ content.

(** The first half of [saveFlashcards]: "Ensure folders exist
    recursively".  [.catch(() => { })] turns every rejection of
    [createFolder] into a fulfilled promise. *)
Definition ensureFolders (settings : Settings) (original : TFile) : Prog (result unit) :=
  let folder := folderPath settings original in
  if truthy folder then
    await! found := call (AdapterExists folder) in
    if negb found then
      let* _ := call (VaultCreateFolder folder) in
      Ret (Ok tt)
    else Ret (Ok tt)
  else Ret (Ok tt).

(** The second half of [saveFlashcards]: modify the existing file or
    create a new one. *)
Definition writeArtifact (settings : Settings) (original : TFile) (content : string)
  : Prog (result unit) :=
  let* existing := call (VaultGetAbstractFileByPath (targetPath settings original)) in
  match existing with
  | IsTFile file => call (VaultModify file (finalContent settings original content))
  | _ => call (VaultCreate (targetPath settings original)
                           (finalContent settings original content))
  end.

(** [saveFlashcards(original, content)] *)
Definition saveFlashcards (settings : Settings) (original : TFile) (content : string)
  : Prog (result unit) :=
  await! _ := ensureFolders settings original in
  writeArtifact settings original content.

(** [accumulatedText] after the call: the last [total] reported, or the
    initial empty string. *)
Definition accumulated (r : ExecReply) : string := List.last (progress r) EmptyString.

(** [!text?.trim()] *)
Definition blank (text : option string) : bool :=
  match text with
  | None => true
  | Some t => negb (truthy (trim t))
  end.

(** The body of the [try] block of [generateFlashcards]. *)
Definition distill (settings : Settings) (file : TFile) : Prog (result Outcome) :=
  await! content := call (VaultRead file) in
  let tagPrefix := "#" ++ flashcardTag settings ++ "/" in
  if negb (truthy (trim content)) || startsWith (trim content) tagPrefix then
    let* _ := call (NewNotice "Skipping: empty or already a flashcard note") in
    Ret (Ok Skipped)
  else
    let* ai := getAIProviders in
    match ai with
    | None =>
        let* _ := call (NewNotice "AI Providers plugin not available") in
        Ret (Ok (Failed ProviderUnavailable))
    | Some ai =>
        match selectProvider settings ai with
        | None =>
            let* _ := call (NewNotice "No AI provider available") in
            Ret (Ok (Failed NoProvider))
        | Some provider =>
            let* _ := call (NewNotice ("Distilling flashcards • " ++ basename file)) in
            let fullPrompt := systemPrompt settings ++ LF ++ LF ++ content in
            await! executed := call (AiExecute provider fullPrompt) in
            let accumulatedText := accumulated executed in
            let text := extractResponseText (value executed) accumulatedText in
            if blank text then
              let* _ := call (ConsoleWarn
                           "AI Flashcard Distiller: Received empty response from AI"
                           (value executed) accumulatedText) in
              let* _ := call (NewNotice ("Nothing distilled for " ++ basename file
                                    ++ " (empty response)")) in
              Ret (Ok (Failed EmptyResponse))
            else
              let clean := sanitize settings (default EmptyString text) in
              if negb (truthy clean) then
                let* _ := call (NewNotice ("No flashcards left after cleaning for "
                                      ++ basename file)) in
                Ret (Ok (Failed EmptyAfterSanitize))
              else
                await! _ := saveFlashcards settings file clean in
                let* _ := call (NewNotice ("Flashcards distilled • " ++ basename file)) in
                Ret (Ok Done)
        end
    end.

(** [generateFlashcards(file)] *)
Definition generateFlashcards (settings : Settings) (file : TFile) : Prog Outcome :=
  if shouldSkipFile settings file then
    let* _ := call (NewNotice "File is in an excluded folder or flashcard root") in
    Ret Skipped
  else
    try_catch (distill settings file)
      (fun err =>
         let* _ := call (ConsoleError "Flashcard distillation failed:" err) in
         let* _ := call (NewNotice ("Failed to distill flashcards: "
                               ++ (if truthy (message err) then message err
                                   else error_String err))) in
         Ret (Failed (Caught err))).

(** The command callback: only a markdown note is distilled. *)
Definition command_callback (settings : Settings) (activeFile : option TFile)
  : Prog (option Outcome) :=
  match activeFile with
  | Some file =>
      if String.eqb (extension file) "md"
      then let* out := generateFlashcards settings file in Ret (Some out)
      else let* _ := call (NewNotice "No active note found") in Ret None
  | None => let* _ := call (NewNotice "No active note found") in Ret None
  end.

(** ** Running a program against a host *)

(** A host answers every action from its state. *)
Definition Handler (W : Type) : Type := forall act : action, W -> reply act * W.

Fixpoint run {W A} (h : Handler W) (p : Prog A) (w : W) : A * W :=
  match p with
  | Ret a => (a, w)
  | Vis act k => let (r, w') := h act w in run h (k r) w'
  end.

(** One host call and the reply it received. *)
Record event := Ev {
  ev_action : action;
  ev_reply : reply ev_action;
}.

(** The host calls a program makes against a host, in order. *)
Fixpoint trace {W A} (h : Handler W) (p : Prog A) (w : W) : list event :=
  match p with
  | Ret _ => []
  | Vis act k => let (r, w') := h act w in Ev act r :: trace h (k r) w'
  end.

(** The write a host call asks for, if it is one: path and data. *)
Definition write_of (e : event) : option (string * string) :=
  match ev_action e with
  | VaultModify file data => Some (path file, data)
  | VaultCreate p data => Some (p, data)
  | _ => None
  end.

Definition writes (t : list event) : list (string * string) := omap write_of t.

(** Calls that change the vault. *)
Definition is_mutation (e : event) : bool :=
  match ev_action e with
  | VaultModify _ _ | VaultCreate _ _ | VaultCreateFolder _ => true
  | _ => false
  end.

(** What the generation service answered, if the call is one to it. *)
Definition generation_reply (e : event) : option (result ExecReply) :=
  match e with
  | Ev act r =>
      match act as a return reply a -> option (result ExecReply) with
      | AiExecute _ _ => fun r => Some r
      | _ => fun _ => None
      end r
  end.

Definition generation_replies (t : list event) : list (result ExecReply) :=
  omap generation_reply t.

(** What the host answered to a folder creation, if the call is one. *)
Definition folder_creation_reply (e : event) : option (result unit) :=
  match e with
  | Ev act r =>
      match act as a return reply a -> option (result unit) with
      | VaultCreateFolder _ => fun r => Some r
      | _ => fun _ => None
      end r
  end.

(** The contract of [getAbstractFileByPath]: a file found at a path has
    that path. *)
Definition faithful_lookup {W} (h : Handler W) : Prop :=
  forall (p : string) (w : W) (file : TFile),
    fst (h (VaultGetAbstractFileByPath p) w) = IsTFile file -> path file = p.

(** ** A reference host: the vault in memory

    The vault maps a path to a file with its text or to a folder.
    [createFolder] rejects an existing path and creates missing parents,
    [create] rejects an existing path and a missing parent, [modify]
    replaces the text of an existing file; a rejected call changes
    nothing.  The generation service is a fixed function of the prompt. *)

Inductive node : Type :=
| File (data : string)
| Folder.

Record World := {
  vault : gmap string node;
  appAiProviders : option IAIProvidersService;
  waitForAI : result IAIProvidersService;
  execute : IAIProvider -> string -> result ExecReply;
  notices : list string;
  console : list string;
}.

Definition with_vault (v : gmap string node) (w : World) : World := {|
  vault := v;
  appAiProviders := appAiProviders w;
  waitForAI := waitForAI w;
  execute := execute w;
  notices := notices w;
  console := console w;
|}.

Definition with_notice (text : string) (w : World) : World := {|
  vault := vault w;
  appAiProviders := appAiProviders w;
  waitForAI := waitForAI w;
  execute := execute w;
  notices := notices w ++ [text];
  console := console w;
|}.

Definition with_console (text : string) (w : World) : World := {|
  vault := vault w;
  appAiProviders := appAiProviders w;
  waitForAI := waitForAI w;
  execute := execute w;
  notices := notices w;
  console := console w ++ [text];
|}.

Definition mkError (text : string) : JsError :=
  {| error_name := "Error"; message := text |}.

(** The part of a path before its last separator (empty at the top). *)
Definition dirname (p : string) : string :=
  join_slash (slice_0_m1 (split_slash p)).

(** The proper ancestors of a path, outermost first. *)
Fixpoint proper_prefixes {A} (l : list A) : list (list A) :=
  match l with
  | [] => []
  | x :: l' =>
      match l' with
      | [] => []
      | _ => [x] :: map (cons x) (proper_prefixes l')
      end
  end.

Definition ancestors (p : string) : list string :=
  map join_slash (proper_prefixes (split_slash p)).

Definition is_file (v : gmap string node) (p : string) : bool :=
  match v !! p with
  | Some (File _) => true
  | _ => false
  end.

Definition is_folder (v : gmap string node) (p : string) : bool :=
  match v !! p with
  | Some Folder => true
  | _ => false
  end.

Definition mem_createFolder (p : string) (v : gmap string node)
  : result unit * gmap string node :=
  match v !! p with
  | Some _ => (Throw (mkError "Folder already exists."), v)
  | None =>
      if existsb (is_file v) (ancestors p)
      then (Throw (mkError ("ENOTDIR: not a directory, mkdir " ++ p)), v)
      else (Ok tt, <[p := Folder]> (foldr (fun a m => <[a := Folder]> m) v (ancestors p)))
  end.

Definition mem_create (p data : string) (v : gmap string node)
  : result unit * gmap string node :=
  match v !! p with
  | Some _ => (Throw (mkError "File already exists."), v)
  | None =>
      if String.eqb (dirname p) EmptyString || is_folder v (dirname p)
      then (Ok tt, <[p := File data]> v)
      else (Throw (mkError ("ENOENT: no such file or directory, open " ++ p)), v)
  end.

Definition mem_modify (file : TFile) (data : string) (v : gmap string node)
  : result unit * gmap string node :=
  if is_file v (path file)
  then (Ok tt, <[path file := File data]> v)
  else (Throw (mkError ("ENOENT: no such file or directory, open " ++ path file)), v).

(** The file name split at its last dot. *)
Fixpoint split_ext (s : string) : string * option string :=
  match s with
  | EmptyString => (EmptyString, None)
  | String c s' =>
      match split_ext s' with
      | (b, Some e) => (String c b, Some e)
      | (b, None) =>
          if Ascii.eqb c "." then (EmptyString, Some s') else (String c b, None)
      end
  end.

Definition tfile_of_path (p : string) : TFile :=
  let file_name := List.last (split_slash p) EmptyString in
  {| path := p;
     basename := fst (split_ext file_name);
     extension := default EmptyString (snd (split_ext file_name)) |}.

Definition MemHost : Handler World :=
  fun act =>
    match act as a return World -> reply a * World with
    | VaultRead file => fun w =>
        match vault w !! path file with
        | Some (File data) => (Ok data, w)
        | _ => (Throw (mkError ("ENOENT: no such file or directory, open "
                                ++ path file)), w)
        end
    | AdapterExists p => fun w =>
        (Ok (bool_decide (is_Some (vault w !! p))), w)
    | VaultCreateFolder p => fun w =>
        let (r, v) := mem_createFolder p (vault w) in (r, with_vault v w)
    | VaultGetAbstractFileByPath p => fun w =>
        match vault w !! p with
        | Some (File _) => (IsTFile (tfile_of_path p), w)
        | Some Folder => (IsTFolder, w)
        | None => (IsNull, w)
        end
    | VaultModify file data => fun w =>
        let (r, v) := mem_modify file data (vault w) in (r, with_vault v w)
    | VaultCreate p data => fun w =>
        let (r, v) := mem_create p data (vault w) in (r, with_vault v w)
    | AppAiProviders => fun w => (appAiProviders w, w)
    | WaitForAI => fun w => (waitForAI w, w)
    | AiExecute provider prompt => fun w => (execute w provider prompt, w)
    | NewNotice text => fun w => (tt, with_notice text w)
    | ConsoleWarn text _ _ => fun w => (tt, with_console text w)
    | ConsoleError text _ => fun w => (tt, with_console text w)
    end.

(** What the two halves of the commit step do to the vault in memory. *)
Definition ensure_vault (settings : Settings) (original : TFile)
  (v : gmap string node) : gmap string node :=
  let folder := folderPath settings original in
  if truthy folder && negb (bool_decide (is_Some (v !! folder)))
  then snd (mem_createFolder folder v)
  else v.

Definition write_vault (settings : Settings) (original : TFile) (content : string)
  (v : gmap string node) : result unit * gmap string node :=
  let target := targetPath settings original in
  match v !! target with
  | Some (File _) =>
      mem_modify (tfile_of_path target) (finalContent settings original content) v
  | _ => mem_create target (finalContent settings original content) v
  end.

(** The service handle the in-memory host hands out. *)
Definition mem_service (w : World) : option IAIProvidersService :=
  match appAiProviders w with
  | Some ai => Some ai
  | None =>
      match waitForAI w with
      | Ok ai => Some ai
      | Throw _ => None
      end
  end.

(** The stages before the commit, evaluated on the in-memory host: the
    terminal state when the invocation ends there, or the sanitized text
    it goes on to commit. *)
Definition mem_prepare (settings : Settings) (file : TFile) (w : World)
  : Outcome + string :=
  if shouldSkipFile settings file then inl Skipped
  else
    match vault w !! path file with
    | Some (File content) =>
        if negb (truthy (trim content))
           || startsWith (trim content) ("#" ++ flashcardTag settings ++ "/")
        then inl Skipped
        else
          match mem_service w with
          | None => inl (Failed ProviderUnavailable)
          | Some ai =>
              match selectProvider settings ai with
              | None => inl (Failed NoProvider)
              | Some provider =>
                  match execute w provider (systemPrompt settings ++ LF ++ LF ++ content) with
                  | Throw err => inl (Failed (Caught err))
                  | Ok executed =>
                      let text := extractResponseText (value executed) (accumulated executed) in
                      if blank text then inl (Failed EmptyResponse)
                      else
                        let clean := sanitize settings (default EmptyString text) in
                        if negb (truthy clean) then inl (Failed EmptyAfterSanitize)
                        else inr clean
                  end
              end
          end
    | _ => inl (Failed (Caught (mkError ("ENOENT: no such file or directory, open "
                                         ++ path file))))
    end.

(** Two states of the in-memory host with the same services. *)
Definition same_services (w w' : World) : Prop :=
  appAiProviders w' = appAiProviders w /\
  waitForAI w' = waitForAI w /\
  execute w' = execute w.

(** A host whose folder creation is rejected for a reason other than the
    folder existing, and is otherwise the vault in memory. *)
Definition denied : JsError :=
  mkError "EACCES: permission denied, mkdir Flashcards/Books".

Definition DenyingHost : Handler World :=
  fun act =>
    match act as a return World -> reply a * World with
    | VaultCreateFolder p => fun w => (Throw denied, w)
    | other => MemHost other
    end.

(** The claim of the specification about folder-creation errors, in its
    words: the error indicates that the folder already exists. *)
Fixpoint contains (s pat : string) : bool :=
  startsWith s pat ||
  match s with
  | EmptyString => false
  | String _ s' => contains s' pat
  end.

Definition indicatesAlreadyExists (err : JsError) : bool :=
  contains (message err) "already exists".

(** A world for the examples: the note Books/Fables.md, an artifact left
    by an earlier run, one provider, and a service that answers with
    [answer]. *)
Definition example_world (answer : result ExecReply) : World := {|
  vault := {[ "Books/Fables.md" := File "The lion and the mouse";
              "Flashcards" := Folder;
              "Flashcards/Books" := Folder;
              "Flashcards/Books/Fables.md" := File "OLD" ]};
  appAiProviders := Some {| providers := [ {| id := "p1"; name := "P1" |} ];
                            mainId := JUndefined |};
  waitForAI := Throw (mkError "not installed");
  execute := fun _ _ => answer;
  notices := [];
  console := [];
|}.

(** ** The settings tab

    The change handlers of [display()] that compute a setting from the
    text typed by the user. *)

(** [s.replace(/^#/, "")]: one leading hash is removed. *)
Definition replace_leading_hash (s : string) : string :=
  match s with
  | String c s' => if Ascii.eqb c "#" then s' else s
  | EmptyString => EmptyString
  end.

(** "Flashcard folder": [flashcardRoot = v.trim()]. *)
Definition onChange_flashcardRoot (v : string) (settings : Settings) : Settings := {|
  flashcardRoot := trim v;
  flashcardTag := flashcardTag settings;
  selectedProviderId := selectedProviderId settings;
  systemPrompt := systemPrompt settings;
  excludedFolders := excludedFolders settings;
  fileHeader := fileHeader settings;
|}.

(** "Flashcard tag":
    [flashcardTag = v.trim().replace(/^#/, "").replace(/\/$/, "")]. *)
Definition onChange_flashcardTag (v : string) (settings : Settings) : Settings := {|
  flashcardRoot := flashcardRoot settings;
  flashcardTag := replace_suffix "/" (replace_leading_hash (trim v));
  selectedProviderId := selectedProviderId settings;
  systemPrompt := systemPrompt settings;
  excludedFolders := excludedFolders settings;
  fileHeader := fileHeader settings;
|}.

(** [v.split(",")] *)
Fixpoint split_comma_go (cur : string) (s : string) : list string :=
  match s with
  | EmptyString => [cur]
  | String c s' =>
      if Ascii.eqb c "," then cur :: split_comma_go EmptyString s'
      else split_comma_go (cur ++ String c EmptyString) s'
  end.
Definition split_comma (s : string) : list string := split_comma_go EmptyString s.

(** "Excluded folders":
    [excludedFolders = v.split(",").map((s) => s.trim()).filter(Boolean)]. *)
Definition onChange_excludedFolders (v : string) (settings : Settings) : Settings := {|
  flashcardRoot := flashcardRoot settings;
  flashcardTag := flashcardTag settings;
  selectedProviderId := selectedProviderId settings;
  systemPrompt := systemPrompt settings;
  excludedFolders := List.filter truthy (map trim (split_comma v));
  fileHeader := fileHeader settings;
|}.

(** The text the tab shows for the excluded folders:
    [excludedFolders.join(", ")]. *)
Definition shown_excludedFolders (settings : Settings) : string :=
  String.concat ", " (excludedFolders settings).

(** A string without the separator of the list. *)
Fixpoint has_comma (s : string) : bool :=
  match s with
  | EmptyString => false
  | String c s' => Ascii.eqb c "," || has_comma s'
  end.

(** ** More observations of a trace *)

(** What the host answered to the read of the note. *)
Definition read_reply (e : event) : option (result string) :=
  match e with
  | Ev act r =>
      match act as a return reply a -> option (result string) with
      | VaultRead _ => fun r => Some r
      | _ => fun _ => None
      end r
  end.

(** The service handle the host handed out, from the application or from
    [waitForAI]. *)
Definition obtained_handle (e : event) : option IAIProvidersService :=
  match e with
  | Ev act r =>
      match act as a return reply a -> option IAIProvidersService with
      | AppAiProviders => fun r => r
      | WaitForAI => fun r => match r with
                              | Ok ai => Some ai
                              | Throw _ => None
                              end
      | _ => fun _ => None
      end r
  end.

(** The rejection of [waitForAI], if the call is one and was rejected. *)
Definition wait_rejection (e : event) : option JsError :=
  match e with
  | Ev act r =>
      match act as a return reply a -> option JsError with
      | WaitForAI => fun r => match r with
                              | Ok _ => None
                              | Throw err => Some err
                              end
      | _ => fun _ => None
      end r
  end.

(** The provider and prompt of a call to the generation service. *)
Definition generation_call (e : event) : option (IAIProvider * string) :=
  match ev_action e with
  | AiExecute provider prompt => Some (provider, prompt)
  | _ => None
  end.

(** What the host answered to a write, and to the existence test. *)
Definition write_reply (e : event) : option (result unit) :=
  match e with
  | Ev act r =>
      match act as a return reply a -> option (result unit) with
      | VaultModify _ _ => fun r => Some r
      | VaultCreate _ _ => fun r => Some r
      | _ => fun _ => None
      end r
  end.

Definition exists_reply (e : event) : option (result bool) :=
  match e with
  | Ev act r =>
      match act as a return reply a -> option (result bool) with
      | AdapterExists _ => fun r => Some r
      | _ => fun _ => None
      end r
  end.

(** The text of a notice. *)
Definition notice_text (e : event) : option string :=
  match ev_action e with
  | NewNotice text => Some text
  | _ => None
  end.

(** The host calls the commit step makes. *)
Definition commit_action (act : action) : bool :=
  match act with
  | AdapterExists _ | VaultCreateFolder _ | VaultGetAbstractFileByPath _
  | VaultModify _ _ | VaultCreate _ _ => true
  | _ => false
  end.

(** Worlds and a host for further examples. *)
Definition world_of (v : gmap string node) (app : option IAIProvidersService)
  (wait : result IAIProvidersService) (answer : result ExecReply) : World := {|
  vault := v;
  appAiProviders := app;
  waitForAI := wait;
  execute := fun _ _ => answer;
  notices := [];
  console := [];
|}.

Definition stat_failure : JsError :=
  mkError "EIO: i/o error, stat Flashcards/Books".

(** A host whose existence test is rejected, and is otherwise the vault
    in memory. *)
Definition BrokenStatHost : Handler World :=
  fun act =>
    match act as a return World -> reply a * World with
    | AdapterExists p => fun w => (Throw stat_failure, w)
    | other => MemHost other
    end.

(** * Properties *)

(** ** Strings *)

#[local] Arguments String.append : simpl nomatch.

Lemma ascii_eqb_true (a b : ascii) : Ascii.eqb a b = true <-> a = b.
Proof. apply Ascii.eqb_eq. Qed.

Lemma append_assoc (a b c : string) : (a ++ b) ++ c = a ++ (b ++ c).
Proof. induction a as [|x a IH]; simpl; [reflexivity | now rewrite IH]. Qed.

Lemma length_append (a b : string) :
  String.length (a ++ b) = String.length a + String.length b.
Proof. induction a as [|x a IH]; simpl; [reflexivity | now rewrite IH]. Qed.

(** [startsWith] decides "is a prefix of". *)
Lemma startsWith_iff (s pre : string) :
  startsWith s pre = true <-> exists rest, s = pre ++ rest.
Proof.
  revert s. induction pre as [|p pre IH]; intros s; simpl.
  - split; [intros _; now exists s | reflexivity].
  - destruct s as [|c s].
    + split; [discriminate | intros [rest H]; discriminate].
    + rewrite andb_true_iff, ascii_eqb_true, IH. split.
      * intros [-> [rest ->]]. now exists rest.
      * intros [rest H]. injection H as -> ->. split; [reflexivity | now exists rest].
Qed.

Lemma startsWith_append (pre rest : string) : startsWith (pre ++ rest) pre = true.
Proof. apply startsWith_iff. now exists rest. Qed.

(** [replace_suffix] removes the suffix when the string ends with it ... *)
Lemma replace_suffix_app (suf b : string) : replace_suffix suf (b ++ suf) = b.
Proof.
  induction b as [|c b IH].
  - simpl. destruct suf; simpl; [reflexivity|].
    now rewrite Ascii.eqb_refl, String.eqb_refl.
  - cbn [append replace_suffix].
    destruct (String.eqb (String c (b ++ suf)) suf) eqn:E.
    + apply String.eqb_eq in E. apply (f_equal String.length) in E.
      cbn [String.length] in E. rewrite length_append in E. lia.
    + now rewrite IH.
Qed.

(** ... and leaves every other string as it is. *)
Lemma replace_suffix_id (suf s : string) :
  (forall b, s <> b ++ suf) -> replace_suffix suf s = s.
Proof.
  induction s as [|c s IH]; intros H.
  - simpl. destruct suf; [now destruct (H EmptyString) | reflexivity].
  - cbn [replace_suffix].
    destruct (String.eqb (String c s) suf) eqn:E.
    + apply String.eqb_eq in E. now destruct (H EmptyString).
    + rewrite IH; [reflexivity|]. intros b ->. now apply (H (String c b)).
Qed.

(** ** Placement resolver *)

(** The inline test of [shouldSkipFile] decides [nestedUnder]. *)
Lemma nested_test (clean p : string) :
  String.eqb p clean || startsWith p (clean ++ "/") = true <-> nestedUnder clean p.
Proof.
  unfold nestedUnder.
  rewrite orb_true_iff, String.eqb_eq, startsWith_iff.
  split; (intros [H | [rest H]]; [now left | right; exists rest]).
  - now rewrite <- append_assoc.
  - now rewrite append_assoc.
Qed.

(** C1, as stated, fails: with the default settings a note under the
    excluded folder Templates is skipped although it is neither the
    output root nor below it. *)
Lemma shouldSkip_not_only_root :
  exists settings file,
    shouldSkipFile settings file = true /\
    ~ nestedUnder (replace_suffix "/" (flashcardRoot settings)) (path file).
Proof.
  exists (DEFAULT_SETTINGS EmptyString), (tfile_of_path "Templates/Daily.md").
  split; [reflexivity|].
  intros [H | [rest H]]; discriminate H.
Qed.

(** The decision is the root test or the test of some excluded folder. *)
Lemma shouldSkipFile_tests (settings : Settings) (file : TFile) :
  shouldSkipFile settings file =
  (String.eqb (path file) (replace_suffix "/" (flashcardRoot settings))
   || startsWith (path file) (replace_suffix "/" (flashcardRoot settings) ++ "/"))
  || existsb
       (fun folder =>
          String.eqb (path file) (replace_suffix "/" folder)
          || startsWith (path file) (replace_suffix "/" folder ++ "/"))
       (excludedFolders settings).
Proof.
  unfold shouldSkipFile. rewrite (orb_comm (String.eqb _ _)).
  now destruct (startsWith _ _ || String.eqb _ _).
Qed.

Lemma excluded_test (p : string) (folders : list string) :
  existsb (fun folder =>
             String.eqb p (replace_suffix "/" folder)
             || startsWith p (replace_suffix "/" folder ++ "/")) folders = true
  <-> Exists (fun folder => nestedUnder (replace_suffix "/" folder) p) folders.
Proof.
  rewrite existsb_exists, Stdlib.Lists.List.Exists_exists.
  split; intros [folder [Hin H]]; exists folder;
    (split; [exact Hin | now apply nested_test]).
Qed.

(** C1 (amended): the skip decision is true exactly when the path is the
    output root or below it, or is an excluded folder or below one, each
    folder taken without one trailing slash. *)
Theorem shouldSkipFile_iff (settings : Settings) (file : TFile) :
  shouldSkipFile settings file = true <->
  nestedUnder (replace_suffix "/" (flashcardRoot settings)) (path file) \/
  Exists (fun folder => nestedUnder (replace_suffix "/" folder) (path file))
         (excludedFolders settings).
Proof.
  rewrite shouldSkipFile_tests, orb_true_iff.
  rewrite nested_test, excluded_test. reflexivity.
Qed.

(** With no excluded folder the decision is the root test alone. *)
Corollary shouldSkipFile_root_only (settings : Settings) (file : TFile) :
  excludedFolders settings = [] ->
  (shouldSkipFile settings file = true <->
   nestedUnder (replace_suffix "/" (flashcardRoot settings)) (path file)).
Proof.
  intros E. rewrite shouldSkipFile_tests, E. cbn [existsb].
  rewrite orb_false_r. apply nested_test.
Qed.

(** A path that continues the root's name with anything but a separator
    is not nested under the root. *)
Lemma extended_name_not_nested (root more : string) (c : ascii) :
  c <> "/"%char -> ~ nestedUnder root (root ++ String c more).
Proof.
  intros Hc [H | [rest H]].
  - apply (f_equal String.length) in H. rewrite length_append in H.
    cbn [String.length] in H. lia.
  - apply String.app_inj in H. injection H as H _. now apply Hc.
Qed.

(** C8: the nesting test works on whole path segments.  A note in a
    sibling folder whose name only extends the root's name is not under
    the root: when it is skipped at all, an excluded folder is the reason,
    and with no excluded folder it is not skipped. *)
Theorem sibling_folder_not_skipped
  (settings : Settings) (file : TFile) (c : ascii) (more : string) :
  path file = replace_suffix "/" (flashcardRoot settings) ++ String c more ->
  c <> "/"%char ->
  ~ nestedUnder (replace_suffix "/" (flashcardRoot settings)) (path file) /\
  (shouldSkipFile settings file = true ->
   Exists (fun folder => nestedUnder (replace_suffix "/" folder) (path file))
          (excludedFolders settings)) /\
  (excludedFolders settings = [] -> shouldSkipFile settings file = false).
Proof.
  intros Hp Hc.
  assert (Hn : ~ nestedUnder (replace_suffix "/" (flashcardRoot settings)) (path file)).
  { rewrite Hp. now apply extended_name_not_nested. }
  split; [exact Hn|]. split.
  - rewrite shouldSkipFile_tests, orb_true_iff, nested_test, excluded_test.
    intros [H | H]; [now destruct Hn | exact H].
  - intros E. destruct (shouldSkipFile settings file) eqn:S; [|reflexivity].
    apply shouldSkipFile_root_only in S; [now destruct Hn | exact E].
Qed.

(** The witness of C8: root Flashcards, note Flashcards2/a.md. *)
Lemma sibling_folder_not_skipped_witness :
  let settings := {| flashcardRoot := "Flashcards/"; flashcardTag := "flashcards";
                     selectedProviderId := EmptyString; systemPrompt := EmptyString;
                     excludedFolders := []; fileHeader := EmptyString |} in
  let file := tfile_of_path "Flashcards2/a.md" in
  shouldSkipFile settings file = false /\
  ~ nestedUnder "Flashcards" (path file).
Proof.
  intros settings file.
  destruct (sibling_folder_not_skipped settings file "2" "/a.md") as [Hn [_ Hs]].
  - reflexivity.
  - discriminate.
  - split; [now apply Hs | exact Hn].
Defined.

(** ** Sanitation of the response text *)

Lemma fold_case_length (s : string) : String.length (fold_case s) = String.length s.
Proof. induction s as [|c s IH]; cbn; [reflexivity | now rewrite IH]. Qed.

(** A string that equals the pattern up to case matches it. *)
Lemma startsWith_ci_fold (a pat rest : string) :
  fold_case a = fold_case pat -> startsWith_ci (a ++ rest) pat = true.
Proof.
  revert a. induction pat as [|p pat IH]; intros a H; [reflexivity|].
  destruct a as [|c a]; [discriminate H|].
  cbn in H. injection H as Hc Ha.
  cbn [append startsWith_ci]. rewrite Hc, Ascii.eqb_refl. now apply IH.
Qed.

Lemma substring_from_app (a rest : string) :
  substring_from (String.length a) (a ++ rest) = rest.
Proof. induction a as [|c a IH]; cbn; [now destruct rest | exact IH]. Qed.

Lemma substring_from_app_le (n : nat) (a rest : string) :
  n <= String.length a ->
  substring_from n (a ++ rest) = substring_from n a ++ rest.
Proof.
  revert a. induction n as [|n IH]; intros a H; [reflexivity|].
  destruct a as [|c a]; cbn in H; [lia|]. cbn. apply IH. lia.
Qed.

Lemma substring_from_length (n : nat) (a : string) :
  String.length (substring_from n a) = String.length a - n.
Proof.
  revert a. induction n as [|n IH]; intros a; cbn; [lia|].
  destruct a as [|c a]; cbn; [reflexivity | apply IH].
Qed.

(** A match of the pattern inside a long enough string does not depend on
    what follows the string. *)
Lemma startsWith_ci_window (x y pat : string) :
  String.length pat <= String.length x ->
  startsWith_ci (x ++ y) pat = startsWith_ci x pat.
Proof.
  revert x. induction pat as [|p pat IH]; intros x H; [reflexivity|].
  destruct x as [|c x]; cbn in H; [lia|].
  cbn [append startsWith_ci]. rewrite IH by lia. reflexivity.
Qed.

(** The lazy scan passes over a body in which the pattern does not match. *)
Lemma after_first_ci_skip (pat body tail : string) :
  (forall i, i < String.length body ->
             startsWith_ci (substring_from i (body ++ tail)) pat = false) ->
  after_first_ci pat (body ++ tail) = after_first_ci pat tail.
Proof.
  induction body as [|c body IH]; intros H; [reflexivity|].
  cbn [append after_first_ci].
  assert (H0 : startsWith_ci (String c (body ++ tail)) pat = false).
  { apply (H 0). cbn. lia. }
  rewrite H0. apply IH. intros i Hi. apply (H (S i)). cbn. lia.
Qed.

Lemma trimStart_spaces (ws rest : string) :
  all_space ws = true -> trimStart (ws ++ rest) = trimStart rest.
Proof.
  induction ws as [|c ws IH]; intros H; [reflexivity|].
  cbn in H. apply andb_true_iff in H as [Hc Hw].
  cbn [append trimStart]. rewrite Hc. now apply IH.
Qed.

(** The think span that is removed ends at the first closing tag. *)
Lemma stripThink_span (opening body closing ws rest : string) :
  fold_case opening = fold_case "<think>" ->
  fold_case closing = fold_case "</think>" ->
  (forall i, i < String.length body ->
             startsWith_ci (substring_from i (body ++ closing)) "</think>" = false) ->
  all_space ws = true ->
  trimStart rest = rest ->
  stripThink (opening ++ body ++ closing ++ ws ++ rest) = rest.
Proof.
  intros Ho Hc Hb Hw Hr. unfold stripThink.
  rewrite (startsWith_ci_fold opening "<think>" _ Ho).
  assert (Hlo : String.length opening = 7).
  { rewrite <- fold_case_length, Ho. reflexivity. }
  assert (Hlc : String.length closing = 8).
  { rewrite <- fold_case_length, Hc. reflexivity. }
  rewrite <- Hlo, substring_from_app.
  rewrite after_first_ci_skip.
  - assert (Hm : startsWith_ci (closing ++ ws ++ rest) "</think>" = true)
      by now apply startsWith_ci_fold.
    destruct closing as [|c closing]; [discriminate Hlc|].
    cbn [append after_first_ci]. cbn [append] in Hm. rewrite Hm.
    change (String c (closing ++ ws ++ rest)) with (String c closing ++ ws ++ rest).
    change (String.length "</think>") with 8. rewrite <- Hlc, substring_from_app.
    rewrite trimStart_spaces by exact Hw. exact Hr.
  - intros i Hi. rewrite <- append_assoc.
    rewrite substring_from_app_le by (rewrite length_append; lia).
    rewrite startsWith_ci_window; [now apply Hb|].
    rewrite substring_from_length, length_append, Hlc. cbn. lia.
Qed.

Lemma after_first_ci_none (pat s : string) :
  (forall i, startsWith_ci (substring_from i s) pat = false) ->
  after_first_ci pat s = None.
Proof.
  induction s as [|c s IH]; intros H; pose proof (H 0) as H0;
    cbn [substring_from] in H0; cbn [after_first_ci]; rewrite H0.
  - reflexivity.
  - apply IH. intros i. apply (H (S i)).
Qed.

(** C3, as stated, fails.  The think span is removed lazily, up to the
    first closing tag, so a second closing tag stays in the text; and the
    text is trimmed before the tag marker is looked for, so a marker after
    leading white space is removed too. *)
Lemma sanitation_not_greedy :
  let text := "<think>a</think>b</think>c" in
  let padded := " #flashcards Front :: Back" in
  (sanitize (DEFAULT_SETTINGS EmptyString) text = "b</think>c" /\
   sanitize_spec "flashcards" text = "c") /\
  (sanitize (DEFAULT_SETTINGS EmptyString) padded = "Front :: Back" /\
   sanitize_spec "flashcards" padded = "#flashcards Front :: Back").
Proof. vm_compute. repeat split; reflexivity. Qed.

(** The first revision of the file has no tag-marker step: there an
    echoed marker stays in the text. *)
Remark sanitize_rev1_keeps_marker :
  sanitize_rev1 ("#flashcards" ++ LF ++ "Front :: Back")
  = "#flashcards" ++ LF ++ "Front :: Back".
Proof. reflexivity. Qed.

(** C3 (amended): sanitation removes a leading think span that ends at
    the first closing tag (tags matched without regard to case) with the
    white space after it, and leaves a text without such a span as it is;
    it trims; then it removes a leading bare tag marker, if there is one,
    and trims again.  Both examples of the specification hold. *)
Theorem sanitation_steps (settings : Settings) (text : string) :
  (forall opening body closing ws rest,
      text = opening ++ body ++ closing ++ ws ++ rest ->
      fold_case opening = fold_case "<think>" ->
      fold_case closing = fold_case "</think>" ->
      (forall i, i < String.length body ->
                 startsWith_ci (substring_from i (body ++ closing)) "</think>" = false) ->
      all_space ws = true ->
      trimStart rest = rest ->
      stripThink text = rest) /\
  (startsWith_ci text "<think>" = false -> stripThink text = text) /\
  ((forall i, startsWith_ci (substring_from i (substring_from 7 text)) "</think>" = false) ->
   stripThink text = text) /\
  (forall rest,
      trim (stripThink text) = "#" ++ flashcardTag settings ++ rest ->
      sanitize settings text = trim rest) /\
  ((forall rest, trim (stripThink text) <> "#" ++ flashcardTag settings ++ rest) ->
   sanitize settings text = trim (stripThink text)) /\
  sanitize (DEFAULT_SETTINGS EmptyString)
    ("<think>scratch</think>" ++ LF ++ LF ++ "Front :: Back") = "Front :: Back" /\
  sanitize (DEFAULT_SETTINGS EmptyString)
    ("#flashcards" ++ LF ++ "Front :: Back") = "Front :: Back".
Proof.
  split; [|split; [|split; [|split; [|split; [|split]]]]].
  - intros opening body closing ws rest -> Ho Hc Hb Hw Hr.
    now apply stripThink_span.
  - intros H. unfold stripThink. now rewrite H.
  - intros H. unfold stripThink. rewrite after_first_ci_none by exact H.
    now destruct (startsWith_ci text "<think>").
  - intros rest H. unfold sanitize. rewrite H.
    change ("#" ++ flashcardTag settings ++ rest)
      with (("#" ++ flashcardTag settings) ++ rest).
    now rewrite startsWith_append, substring_from_app.
  - intros H. unfold sanitize.
    destruct (startsWith (trim (stripThink text)) ("#" ++ flashcardTag settings)) eqn:E;
      [|reflexivity].
    apply startsWith_iff in E as [rest E]. now destruct (H rest).
  - reflexivity.
  - reflexivity.
Qed.

(** The witness of C3: the first example, span by span. *)
Lemma sanitation_steps_witness :
  stripThink ("<think>scratch</think>" ++ LF ++ LF ++ "Front :: Back") = "Front :: Back" /\
  sanitize (DEFAULT_SETTINGS EmptyString) ("#flashcards" ++ LF ++ "Front :: Back")
  = "Front :: Back".
Proof.
  destruct (sanitation_steps (DEFAULT_SETTINGS EmptyString)
              ("<think>scratch</think>" ++ LF ++ LF ++ "Front :: Back"))
    as (Hspan & _).
  destruct (sanitation_steps (DEFAULT_SETTINGS EmptyString)
              ("#flashcards" ++ LF ++ "Front :: Back"))
    as (_ & _ & _ & Htag & _).
  split.
  - apply (Hspan "<think>" "scratch" "</think>" (LF ++ LF) "Front :: Back");
      try reflexivity.
    intros i Hi. do 7 (destruct i as [|i]; [reflexivity|]). cbn in Hi. lia.
  - apply (Htag (LF ++ "Front :: Back")). reflexivity.
Defined.

(** ** Extraction of the response text *)

(** C4, as stated, fails in three places.  A truthy probe field that is
    not a string hides a later field that is one: the result is the dump,
    not the later string.  An object whose fields are all falsy and whose
    [result] is the empty string yields the empty string, not the dump.
    A falsy value that is not null, such as 0 or false, yields null, not
    its stringification. *)
Lemma extraction_not_by_first_string :
  let hidden := JObject [("text", JNumber 42); ("content", JString "hello")] in
  let hollow := JObject [("result", JString EmptyString)] in
  (extractResponseText hidden EmptyString = JSON_stringify_2 hidden /\
   extract_spec hidden EmptyString = Some "hello" /\
   JSON_stringify_2 hidden <> Some "hello") /\
  (extractResponseText hollow EmptyString = Some EmptyString /\
   extract_spec hollow EmptyString = JSON_stringify_2 hollow /\
   JSON_stringify_2 hollow <> Some EmptyString) /\
  (extractResponseText (JNumber 0) EmptyString = None /\
   extract_spec (JNumber 0) EmptyString = Some "0") /\
  (extractResponseText (JBool false) EmptyString = None /\
   extract_spec (JBool false) EmptyString = Some "false").
Proof. vm_compute. repeat split; discriminate. Qed.

Lemma js_or_find (a : JsValue) (rest : list JsValue) (last : JsValue) :
  match List.find js_truthy (a :: rest) with
  | Some v => v
  | None => last
  end
  = js_or a (match List.find js_truthy rest with
             | Some v => v
             | None => last
             end).
Proof. cbn [List.find]. unfold js_or. now destruct (js_truthy a). Qed.

Lemma js_or_assoc (a b c : JsValue) : js_or (js_or a b) c = js_or a (js_or b c).
Proof.
  unfold js_or. destruct (js_truthy a) eqn:Ea; [now rewrite Ea|].
  reflexivity.
Qed.

Lemma js_or_falsy (a : JsValue) : js_or a a = a.
Proof. unfold js_or. now destruct (js_truthy a). Qed.

Lemma probe_chain (raw : JsValue) :
  js_or (js_or (js_or (js_or (js_or (js_get raw "text") (js_get raw "content"))
                             (js_get raw "message"))
                      (js_get raw "response"))
               (js_get raw "data"))
        (js_get raw "result")
  = first_truthy_probe raw.
Proof.
  unfold first_truthy_probe, probe_fields. cbn [map].
  rewrite !js_or_find. cbn [List.find].
  rewrite !js_or_assoc, js_or_falsy. reflexivity.
Qed.

(** What [representable] leaves out: 10^21, which [String] prints as
    1e+21; an object with the key "0", which the dump would list first;
    and a key given twice. *)
Lemma representable_excludes :
  representable (JNumber (10 ^ 21)) = false /\
  representable (JObject [("text", JNumber (2 ^ 53))]) = false /\
  representable (JObject [("b", JNull); ("0", JNull)]) = false /\
  representable (JObject [("a", JNull); ("a", JBool true)]) = false /\
  representable (JArray [JObject [("00", JNumber (- MAX_SAFE_INTEGER))]; JUndefined]) = true.
Proof. repeat split. Qed.

(** C4 (amended): a non-empty string result is used as it is; else a
    non-empty accumulated text; else, for an object or array, the first
    truthy probe field (or [result] when none is truthy) when that is a
    string, and the dump of the whole value otherwise; else the
    stringification of true or of a number other than 0; else null.
    The result is a [representable] value: its numbers are safe
    integers, printed in plain decimal, and its objects have distinct
    keys, none a decimal numeral, dumped in insertion order. *)
Theorem extraction_precedence (raw : JsValue) (accumulatedText : string) :
  representable raw = true ->
  extractResponseText raw accumulatedText =
  match raw with
  | JString (String _ _ as s) => Some s
  | _ =>
      if truthy accumulatedText then Some accumulatedText
      else match raw with
           | JArray _ | JObject _ =>
               match first_truthy_probe raw with
               | JString s => Some s
               | _ => JSON_stringify_2 raw
               end
           | JBool true => Some "true"
           | JNumber z => if Z.eqb z 0 then None else Some (pretty z)
           | _ => None
           end
  end.
Proof.
  intros _. unfold extractResponseText. rewrite probe_chain.
  assert (Hacc : Nat.ltb 0 (String.length accumulatedText) = truthy accumulatedText)
    by now destruct accumulatedText.
  rewrite Hacc.
  destruct raw as [| |[|]|z|[|c s]|items|fields]; cbn;
    try reflexivity; destruct (truthy accumulatedText); try reflexivity.
  - now destruct (Z.eqb z 0).
Qed.

(** The witness of C4: the largest safe integer is printed with all its
    digits, and an object whose first truthy probe field is a number is
    dumped, fields in insertion order, with that number in plain
    decimal. *)
Lemma extraction_precedence_witness :
  let hidden := JObject [("text", JNumber 42); ("content", JString "hello")] in
  (representable (JNumber MAX_SAFE_INTEGER) = true /\
   extractResponseText (JNumber MAX_SAFE_INTEGER) EmptyString
   = Some "9007199254740991") /\
  (representable hidden = true /\
   extractResponseText hidden EmptyString
   = Some ("{" ++ LF ++ "  " ++ DQUOTE ++ "text" ++ DQUOTE ++ ": 42," ++ LF
           ++ "  " ++ DQUOTE ++ "content" ++ DQUOTE ++ ": " ++ DQUOTE ++ "hello"
           ++ DQUOTE ++ LF ++ "}")).
Proof.
  cbv zeta. split; (split; [reflexivity|]).
  - rewrite (extraction_precedence (JNumber MAX_SAFE_INTEGER) EmptyString eq_refl).
    reflexivity.
  - rewrite (extraction_precedence
               (JObject [("text", JNumber 42); ("content", JString "hello")])
               EmptyString eq_refl).
    reflexivity.
Defined.

(** ** Programs and their traces *)

Lemma run_bind {W A B} (h : Handler W) (m : Prog A) (f : A -> Prog B) (w : W) :
  run h (bind m f) w = run h (f (fst (run h m w))) (snd (run h m w)).
Proof.
  revert w. induction m as [a | act k IH]; intros w; simpl; [reflexivity|].
  destruct (h act w) as [r w']. apply IH.
Qed.

Lemma trace_bind {W A B} (h : Handler W) (m : Prog A) (f : A -> Prog B) (w : W) :
  trace h (bind m f) w =
  (trace h m w ++ trace h (f (fst (run h m w))) (snd (run h m w)))%list.
Proof.
  revert w. induction m as [a | act k IH]; intros w; simpl; [reflexivity|].
  destruct (h act w) as [r w']. simpl. now rewrite IH.
Qed.

(** Simplification that keeps the pure functions of the plugin folded,
    and one step of a host: name the reply and the next state. *)
Ltac prog_cbn :=
  cbn -[saveFlashcards String.append sanitize extractResponseText selectProvider
        trim startsWith truthy blank finalContent targetPath folderPath].

Ltac host_next h :=
  match goal with
  | |- context [h ?act ?w] =>
      let r := fresh "r" in
      let w' := fresh "w" in
      destruct (h act w) as [r w']; cbn in r; prog_cbn
  end.

(** The first half of the commit step asks for no write. *)
Lemma ensureFolders_writes {W} (h : Handler W) settings original (w : W) :
  writes (trace h (ensureFolders settings original) w) = [].
Proof.
  unfold ensureFolders.
  destruct (truthy (folderPath settings original)); [|reflexivity].
  prog_cbn. host_next h. destruct r as [[|]|err]; prog_cbn; try reflexivity.
  host_next h. reflexivity.
Qed.

(** The second half asks for exactly one write, of the composed text. *)
Lemma writeArtifact_writes {W} (h : Handler W) settings original content (w : W) :
  exists p, writes (trace h (writeArtifact settings original content) w)
            = [(p, finalContent settings original content)] /\
            (faithful_lookup h -> p = targetPath settings original).
Proof.
  unfold writeArtifact. cbn.
  destruct (h (VaultGetAbstractFileByPath (targetPath settings original)) w)
    as [r w'] eqn:E.
  cbn in r. destruct r as [file| |]; cbn.
  - destruct (h (VaultModify file _) w') as [r' w'']. cbn.
    exists (path file). split; [reflexivity|].
    intros Hf. apply (Hf _ w). now rewrite E.
  - destruct (h (VaultCreate _ _) w') as [r' w'']. cbn.
    eexists. split; [reflexivity | reflexivity].
  - destruct (h (VaultCreate _ _) w') as [r' w'']. cbn.
    eexists. split; [reflexivity | reflexivity].
Qed.

Lemma writes_app (t1 t2 : list event) : writes (t1 ++ t2)%list = (writes t1 ++ writes t2)%list.
Proof. unfold writes. apply omap_app. Qed.

(** The commit step asks for at most one write: the composed text, at the
    mirrored path. *)
Lemma saveFlashcards_writes {W} (h : Handler W) settings original content (w : W) :
  writes (trace h (saveFlashcards settings original content) w) = [] \/
  exists p, writes (trace h (saveFlashcards settings original content) w)
            = [(p, finalContent settings original content)] /\
            (faithful_lookup h -> p = targetPath settings original).
Proof.
  unfold saveFlashcards, await.
  rewrite trace_bind, writes_app, ensureFolders_writes.
  destruct (fst (run h (ensureFolders settings original) w)) as [[]|err].
  - right. apply writeArtifact_writes.
  - now left.
Qed.

(** The composed text, spelled out. *)
Lemma finalContent_spelled settings original content :
  finalContent settings original content =
  tagLine settings original ++ LF ++ LF
    ++ (if String.eqb (trim (fileHeader settings)) EmptyString then EmptyString
        else trim (fileHeader settings) ++ LF ++ LF)
    ++ content.
Proof.
  unfold finalContent, truthy.
  destruct (String.eqb (trim (fileHeader settings)) EmptyString); cbn [negb].
  - now rewrite !append_assoc.
  - now rewrite !append_assoc.
Qed.

(** C5: the destination is the output root without one trailing slash,
    a slash, and the source path; it is a function of the settings and the
    source path alone: whatever the host holds or answers, a write of the
    commit step goes to that path. *)
Theorem destination_path (settings : Settings) (original : TFile) :
  (forall r, flashcardRoot settings = r ++ "/" ->
             targetPath settings original = r ++ "/" ++ path original) /\
  ((forall r, flashcardRoot settings <> r ++ "/") ->
   targetPath settings original = flashcardRoot settings ++ "/" ++ path original) /\
  (forall W (h : Handler W) (w : W) (content : string),
      faithful_lookup h ->
      Forall (fun wr => fst wr = targetPath settings original)
             (writes (trace h (saveFlashcards settings original content) w))).
Proof.
  unfold targetPath. repeat split.
  - intros r ->. now rewrite replace_suffix_app.
  - intros H. now rewrite replace_suffix_id.
  - intros W h w content Hf.
    destruct (saveFlashcards_writes h settings original content w)
      as [-> | [p [-> Hp]]].
    + constructor.
    + constructor; [|constructor]. simpl. now apply Hp.
Qed.

(** The in-memory host keeps the contract of the lookup. *)
Lemma MemHost_faithful : faithful_lookup MemHost.
Proof.
  intros p w file. cbn. destruct (vault w !! p) as [[data|]|]; cbn; intros H;
    [injection H as <-; reflexivity | discriminate | discriminate].
Qed.

(** The witness of C5: both forms of the root give the same destination. *)
Lemma destination_path_witness :
  let fables := tfile_of_path "Books/Fables.md" in
  let slashed := {| flashcardRoot := "Flashcards/"; flashcardTag := "flashcards";
                    selectedProviderId := EmptyString; systemPrompt := EmptyString;
                    excludedFolders := []; fileHeader := EmptyString |} in
  targetPath slashed fables = "Flashcards/Books/Fables.md" /\
  targetPath (DEFAULT_SETTINGS EmptyString) fables = "Flashcards/Books/Fables.md" /\
  Forall (fun wr => fst wr = "Flashcards/Books/Fables.md")
    (writes (trace MemHost (saveFlashcards slashed fables "Front :: Back")
               (example_world (Ok {| progress := []; value := JNull |})))).
Proof.
  intros fables slashed.
  destruct (destination_path slashed fables) as (H1 & _ & H3).
  destruct (destination_path (DEFAULT_SETTINGS EmptyString) fables) as (_ & H2 & _).
  split; [apply (H1 "Flashcards"); reflexivity|].
  split.
  - apply H2. intros r Hr.
    pose proof (replace_suffix_app "/" r) as Hs. rewrite <- Hr in Hs.
    vm_compute in Hs. subst r. vm_compute in Hr. discriminate Hr.
  - apply (H3 World MemHost _ "Front :: Back" MemHost_faithful).
Defined.

(** ** The commit step on the in-memory host *)

Lemma same_services_trans w1 w2 w3 :
  same_services w1 w2 -> same_services w2 w3 -> same_services w1 w3.
Proof. intros (A & B & C) (A' & B' & C'). repeat split; congruence. Qed.

Lemma mem_ensureFolders settings original (w : World) :
  let r := run MemHost (ensureFolders settings original) w in
  fst r = Ok tt /\
  vault (snd r) = ensure_vault settings original (vault w) /\
  same_services w (snd r).
Proof.
  unfold ensureFolders, ensure_vault.
  destruct (truthy (folderPath settings original)); cbn;
    [|repeat split; reflexivity].
  destruct (bool_decide _); cbn; [repeat split; reflexivity|].
  destruct (mem_createFolder _ _) as [r v]. cbn. repeat split; reflexivity.
Qed.

Lemma mem_writeArtifact settings original content (w : World) :
  let r := run MemHost (writeArtifact settings original content) w in
  fst r = fst (write_vault settings original content (vault w)) /\
  vault (snd r) = snd (write_vault settings original content (vault w)) /\
  same_services w (snd r).
Proof.
  unfold writeArtifact, write_vault. cbn.
  destruct (vault w !! targetPath settings original) as [[data|]|] eqn:E; cbn.
  - destruct (mem_modify _ _ _) as [r v]. cbn. repeat split; reflexivity.
  - destruct (mem_create _ _ _) as [r v]. cbn. repeat split; reflexivity.
  - destruct (mem_create _ _ _) as [r v]. cbn. repeat split; reflexivity.
Qed.

Lemma mem_saveFlashcards settings original content (w : World) :
  let r := run MemHost (saveFlashcards settings original content) w in
  let v := ensure_vault settings original (vault w) in
  fst r = fst (write_vault settings original content v) /\
  vault (snd r) = snd (write_vault settings original content v) /\
  same_services w (snd r).
Proof.
  cbv zeta. unfold saveFlashcards, await. rewrite run_bind.
  destruct (mem_ensureFolders settings original w) as (-> & Hv & Hs).
  destruct (mem_writeArtifact settings original content
              (snd (run MemHost (ensureFolders settings original) w)))
    as (Hr & Hv' & Hs').
  rewrite Hv in Hr, Hv'.
  split; [exact Hr | split; [exact Hv' | eapply same_services_trans; eassumption]].
Qed.

(** A successful write leaves the composed text at the mirrored path,
    whatever was there; a rejected one leaves the vault as it was. *)
Lemma write_vault_cases settings original content (v : gmap string node) :
  (fst (write_vault settings original content v) = Ok tt /\
   snd (write_vault settings original content v)
   = <[targetPath settings original := File (finalContent settings original content)]> v)
  \/
  (exists err, fst (write_vault settings original content v) = Throw err) /\
  snd (write_vault settings original content v) = v.
Proof.
  unfold write_vault, mem_modify, mem_create, is_file.
  cbn [path tfile_of_path].
  destruct (v !! targetPath settings original) as [[data|]|] eqn:E;
    cbn [fst snd]; rewrite ?E; cbn [fst snd].
  - now left.
  - right. split; [eexists|]; reflexivity.
  - destruct (_ || _); cbn [fst snd]; [now left|].
    right. split; [eexists|]; reflexivity.
Qed.

Lemma write_vault_on_file settings original content (v : gmap string node) data :
  v !! targetPath settings original = Some (File data) ->
  fst (write_vault settings original content v) = Ok tt.
Proof.
  intros E. unfold write_vault, mem_modify, is_file.
  cbn [path tfile_of_path]. now rewrite !E.
Qed.

Lemma foldr_insert_folder (l : list string) (v : gmap string node) (q : string) :
  foldr (fun a m => <[a := Folder]> m) v l !! q
  = if decide (q ∈ l) then Some Folder else v !! q.
Proof.
  induction l as [|a l IH]; cbn.
  - reflexivity.
  - destruct (decide (a = q)) as [->|Hne].
    + rewrite lookup_insert_eq. rewrite decide_True; [reflexivity | left].
    + rewrite lookup_insert_ne by exact Hne. rewrite IH.
      destruct (decide (q ∈ l)) as [Hin|Hin].
      * rewrite decide_True; [reflexivity | now right].
      * rewrite decide_False; [reflexivity|].
        intros H. apply elem_of_cons in H as [->|H]; [now apply Hne | now apply Hin].
Qed.

(** Folder creation neither adds, removes nor changes a file. *)
Lemma mem_createFolder_files p (v : gmap string node) q data :
  snd (mem_createFolder p v) !! q = Some (File data) <-> v !! q = Some (File data).
Proof.
  unfold mem_createFolder.
  destruct (v !! p) as [n|] eqn:Ep; [reflexivity|].
  destruct (existsb (is_file v) (ancestors p)) eqn:Ea; [reflexivity|].
  cbn. destruct (decide (p = q)) as [->|Hne].
  - rewrite lookup_insert_eq, Ep. split; discriminate.
  - rewrite lookup_insert_ne by exact Hne. rewrite foldr_insert_folder.
    destruct (decide (q ∈ ancestors p)) as [Hin|Hin]; [|reflexivity].
    split; [discriminate|]. intros Hq. exfalso.
    assert (existsb (is_file v) (ancestors p) = true) as Ht; [|congruence].
    apply existsb_exists. exists q. split.
    + now apply list_elem_of_In.
    + unfold is_file. now rewrite Hq.
Qed.

Lemma ensure_vault_files settings original (v : gmap string node) q data :
  ensure_vault settings original v !! q = Some (File data) <-> v !! q = Some (File data).
Proof.
  unfold ensure_vault. destruct (_ && _); [|reflexivity].
  apply mem_createFolder_files.
Qed.

(** Ensuring the folders a second time changes nothing. *)
Lemma ensure_vault_idem settings original (v : gmap string node) :
  ensure_vault settings original (ensure_vault settings original v)
  = ensure_vault settings original v.
Proof.
  unfold ensure_vault.
  destruct (truthy (folderPath settings original)); cbn [andb]; [|reflexivity].
  destruct (bool_decide (is_Some (v !! folderPath settings original))) eqn:Ex;
    cbn [negb]; [now rewrite Ex|].
  unfold mem_createFolder.
  destruct (v !! folderPath settings original) as [n|] eqn:Ep.
  - cbn. now rewrite Ep.
  - destruct (existsb (is_file v) (ancestors (folderPath settings original))) eqn:Ea.
    + cbn. now rewrite Ep, Ea.
    + cbn. rewrite lookup_insert_eq. rewrite bool_decide_true; [reflexivity | eauto].
Qed.

(** The mirrored path is never the source path. *)
Lemma targetPath_not_source settings original :
  targetPath settings original <> path original.
Proof.
  unfold targetPath. intros H. apply (f_equal String.length) in H.
  rewrite !length_append in H. cbn in H. lia.
Qed.

(** The commit step leaves the source note as it is. *)
Lemma commit_keeps_source settings original content (v : gmap string node) data :
  v !! path original = Some (File data) ->
  snd (write_vault settings original content (ensure_vault settings original v))
    !! path original = Some (File data).
Proof.
  intros Hs.
  assert (Hs' : ensure_vault settings original v !! path original = Some (File data))
    by now apply ensure_vault_files.
  destruct (write_vault_cases settings original content (ensure_vault settings original v))
    as [[_ ->] | [_ ->]]; [|exact Hs'].
  rewrite lookup_insert_ne; [exact Hs' | apply targetPath_not_source].
Qed.

(** Committing the same text a second time gives the same result and
    leaves the same entry at the mirrored path. *)
Lemma commit_twice settings original content (v : gmap string node) :
  let v1 := snd (write_vault settings original content (ensure_vault settings original v)) in
  let r2 := write_vault settings original content (ensure_vault settings original v1) in
  fst r2 = fst (write_vault settings original content (ensure_vault settings original v)) /\
  snd r2 !! targetPath settings original = v1 !! targetPath settings original.
Proof.
  cbv zeta.
  destruct (write_vault_cases settings original content (ensure_vault settings original v))
    as [[Hok Hv] | [[err Herr] Hv]].
  - rewrite Hv, Hok.
    set (v1 := <[targetPath settings original := _]> _).
    assert (Hf : ensure_vault settings original v1 !! targetPath settings original
                 = Some (File (finalContent settings original content))).
    { apply ensure_vault_files. subst v1. apply lookup_insert_eq. }
    pose proof (write_vault_on_file settings original content _ _ Hf) as Hok2.
    split; [exact Hok2|].
    destruct (write_vault_cases settings original content (ensure_vault settings original v1))
      as [[_ ->] | [[err Herr] _]]; [|congruence].
    rewrite lookup_insert_eq. subst v1. now rewrite lookup_insert_eq.
  - rewrite Hv, ensure_vault_idem. split; [reflexivity | now rewrite Hv].
Qed.

(** ** The committed artifact *)

(** C2: every write the commit step asks for carries the tag line, a
    blank line, the trimmed header and a blank line when the header is not
    blank, and the sanitized text; on the in-memory host a successful
    commit leaves exactly that text at the mirrored path.  The tag line
    is the tag, a slash and the source path without its [.md] suffix.
    Scenario A is the instance Books/Fables.md. *)
Theorem committed_content (settings : Settings) (original : TFile) (content : string) :
  let header := trim (fileHeader settings) in
  let expected :=
    "#" ++ flashcardTag settings ++ "/" ++ replace_suffix ".md" (path original)
      ++ LF ++ LF
      ++ (if String.eqb header EmptyString then EmptyString else header ++ LF ++ LF)
      ++ content in
  (forall W (h : Handler W) (w : W),
      Forall (fun wr => snd wr = expected)
             (writes (trace h (saveFlashcards settings original content) w))) /\
  (forall w : World,
      fst (run MemHost (saveFlashcards settings original content) w) = Ok tt ->
      vault (snd (run MemHost (saveFlashcards settings original content) w))
        !! targetPath settings original = Some (File expected)) /\
  (forall base, path original = base ++ ".md" ->
                tagLine settings original = "#" ++ flashcardTag settings ++ "/" ++ base) /\
  (let fables := {| path := "Books/Fables.md"; basename := "Fables"; extension := "md" |} in
   targetPath (DEFAULT_SETTINGS EmptyString) fables = "Flashcards/Books/Fables.md" /\
   tagLine (DEFAULT_SETTINGS EmptyString) fables = "#flashcards/Books/Fables").
Proof.
  cbv zeta.
  assert (E : finalContent settings original content =
              "#" ++ flashcardTag settings ++ "/" ++ replace_suffix ".md" (path original)
                ++ LF ++ LF
                ++ (if String.eqb (trim (fileHeader settings)) EmptyString
                    then EmptyString else trim (fileHeader settings) ++ LF ++ LF)
                ++ content).
  { rewrite finalContent_spelled. unfold tagLine. now rewrite !append_assoc. }
  rewrite <- E. repeat split.
  - intros W h w.
    destruct (saveFlashcards_writes h settings original content w)
      as [-> | [p [-> _]]]; repeat constructor.
  - intros w Hok.
    destruct (mem_saveFlashcards settings original content w) as (Hr & -> & _).
    rewrite Hok in Hr.
    destruct (write_vault_cases settings original content
                (ensure_vault settings original (vault w)))
      as [[_ ->] | [[err Herr] _]]; [apply lookup_insert_eq | congruence].
  - intros base Hp. unfold tagLine. now rewrite Hp, replace_suffix_app.
Qed.

(** The witness of C2: scenario A on the in-memory host, over the
    artifact of an earlier run. *)
Lemma committed_content_witness :
  let settings := DEFAULT_SETTINGS "Make cards" in
  let file := tfile_of_path "Books/Fables.md" in
  let w := example_world (Ok {| progress := []; value := JNull |}) in
  vault (snd (run MemHost (saveFlashcards settings file "Front :: Back") w))
    !! "Flashcards/Books/Fables.md"
  = Some (File ("#flashcards/Books/Fables" ++ LF ++ LF ++ "Front :: Back")).
Proof.
  intros settings file w.
  destruct (committed_content settings file "Front :: Back") as (_ & H & _).
  apply (H w). reflexivity.
Defined.

(** ** Folder creation errors *)

(** C9, as stated, fails: a folder creation rejected with a permission
    error, which does not say that the folder exists, is swallowed too.
    The invocation goes on to create the file, and the failure it reports
    is the one of the file creation. *)
Lemma other_folder_errors_swallowed :
  let settings := DEFAULT_SETTINGS "Make cards" in
  let file := tfile_of_path "Books/Fables.md" in
  let w := with_vault {[ "Books/Fables.md" := File "The lion and the mouse" ]}
             (example_world (Ok {| progress := []; value := JString "Front :: Back" |})) in
  let t := trace DenyingHost (generateFlashcards settings file) w in
  indicatesAlreadyExists denied = false /\
  omap folder_creation_reply t = [Throw denied] /\
  fst (run DenyingHost (ensureFolders settings file) w) = Ok tt /\
  writes t = [("Flashcards/Books/Fables.md",
               finalContent settings file "Front :: Back")] /\
  fst (run DenyingHost (generateFlashcards settings file) w)
  = Failed (Caught (mkError
      "ENOENT: no such file or directory, open Flashcards/Books/Fables.md")).
Proof. vm_compute. repeat split; reflexivity. Qed.

(** C9 (amended): whatever the host answers to the folder creation, a
    success or an error of any kind, the commit step goes on with the
    write exactly as after a success. *)
Theorem folder_creation_errors_swallowed {W} (h : Handler W) (w w1 w2 : W)
  (settings : Settings) (original : TFile) (content : string) (r : result unit) :
  truthy (folderPath settings original) = true ->
  h (AdapterExists (folderPath settings original)) w = (Ok false, w1) ->
  h (VaultCreateFolder (folderPath settings original)) w1 = (r, w2) ->
  fst (run h (ensureFolders settings original) w) = Ok tt /\
  run h (saveFlashcards settings original content) w
  = run h (writeArtifact settings original content) w2.
Proof.
  intros Hf He Hc. unfold saveFlashcards, await. rewrite run_bind.
  unfold ensureFolders. rewrite Hf. cbn -[writeArtifact folderPath].
  rewrite He. cbn -[writeArtifact folderPath].
  rewrite Hc. cbn -[writeArtifact folderPath].
  split; reflexivity.
Qed.

(** The witness of C9: the permission error of the denying host. *)
Lemma folder_creation_errors_swallowed_witness :
  let settings := DEFAULT_SETTINGS "Make cards" in
  let file := tfile_of_path "Books/Fables.md" in
  let w := with_vault {[ "Books/Fables.md" := File "The lion and the mouse" ]}
             (example_world (Ok {| progress := []; value := JString "Front :: Back" |})) in
  fst (run DenyingHost (ensureFolders settings file) w) = Ok tt /\
  run DenyingHost (saveFlashcards settings file "Front :: Back") w
  = run DenyingHost (writeArtifact settings file "Front :: Back") w.
Proof.
  intros settings file w.
  apply (folder_creation_errors_swallowed DenyingHost w w w settings file
           "Front :: Back" (Throw denied)); reflexivity.
Defined.

(** ** The whole invocation on the in-memory host *)

Ltac mem_cbn :=
  cbn -[saveFlashcards String.append sanitize extractResponseText selectProvider
        trim startsWith truthy blank write_vault ensure_vault].

Lemma mem_generate settings file (w : World) :
  let r := run MemHost (generateFlashcards settings file) w in
  same_services w (snd r) /\
  match mem_prepare settings file w with
  | inl o => fst r = o /\ vault (snd r) = vault w
  | inr clean =>
      let c := write_vault settings file clean (ensure_vault settings file (vault w)) in
      vault (snd r) = snd c /\
      fst r = match fst c with
              | Ok _ => Done
              | Throw err => Failed (Caught err)
              end
  end.
Proof.
  cbv zeta. unfold generateFlashcards, mem_prepare.
  destruct (shouldSkipFile settings file); [cbn; repeat split; reflexivity|].
  unfold try_catch, distill, await, getAIProviders, mem_service.
  mem_cbn.
  destruct (vault w !! path file) as [[content|]|]; mem_cbn;
    try (repeat split; reflexivity).
  destruct (negb (truthy (trim content)) || _); mem_cbn;
    [repeat split; reflexivity|].
  destruct (appAiProviders w) as [ai|] eqn:Eapp; mem_cbn.
  2: destruct (waitForAI w) as [ai|e] eqn:Ewait; mem_cbn;
       [|repeat split; reflexivity].
  all: destruct (selectProvider settings ai) as [provider|]; mem_cbn;
         [|repeat split; reflexivity].
  all: destruct (execute w provider _) as [executed|err]; mem_cbn;
         [|repeat split; reflexivity].
  all: destruct (blank _); mem_cbn; [repeat split; reflexivity|].
  all: destruct (negb (truthy (sanitize _ _))); mem_cbn; [repeat split; reflexivity|].
  all: rewrite !run_bind.
  all: match goal with
       | |- context [run MemHost (saveFlashcards ?s ?f ?c) ?w0] =>
           destruct (mem_saveFlashcards s f c w0) as (Hr & Hv & Hs);
           cbn [vault with_notice] in Hr, Hv;
           destruct (run MemHost (saveFlashcards s f c) w0) as [r1 w1]
       end.
  all: cbn [fst snd] in *; rewrite <- Hr, <- Hv.
  all: destruct r1 as [[]|err]; mem_cbn.
  all: destruct Hs as (A & B & C); cbn in A, B, C.
  all: repeat split; assumption || reflexivity.
Qed.

Lemma mem_prepare_agree settings file (w w' : World) :
  same_services w w' ->
  vault w' !! path file = vault w !! path file ->
  mem_prepare settings file w' = mem_prepare settings file w.
Proof.
  intros (A & B & C) Hv. unfold mem_prepare, mem_service.
  now rewrite A, B, C, Hv.
Qed.

Lemma mem_prepare_source settings file (w : World) clean :
  mem_prepare settings file w = inr clean ->
  exists content, vault w !! path file = Some (File content).
Proof.
  unfold mem_prepare. destruct (shouldSkipFile settings file); [discriminate|].
  destruct (vault w !! path file) as [[content|]|]; [|discriminate|discriminate].
  intros _. now exists content.
Qed.

Lemma mem_prepare_not_done settings file (w : World) :
  mem_prepare settings file w <> inl Done.
Proof.
  unfold mem_prepare.
  repeat match goal with
         | |- context [if ?c then _ else _] => destruct c
         | |- context [match ?x with _ => _ end] => destruct x
         end; discriminate.
Qed.

(** C6: on the in-memory host, a second invocation on the state the first
    one left ends in the same terminal state and leaves the same entry at
    the mirrored path; and a successful invocation leaves there exactly
    the text composed from the settings, the source path and the sanitized
    response, whatever the path held before. *)
Theorem pipeline_idempotent (settings : Settings) (file : TFile) (w : World) :
  let r1 := run MemHost (generateFlashcards settings file) w in
  let r2 := run MemHost (generateFlashcards settings file) (snd r1) in
  fst r2 = fst r1 /\
  vault (snd r2) !! targetPath settings file = vault (snd r1) !! targetPath settings file /\
  (fst r1 = Done ->
   exists clean,
     mem_prepare settings file w = inr clean /\
     vault (snd r1) !! targetPath settings file
     = Some (File (finalContent settings file clean))).
Proof.
  cbv zeta.
  destruct (mem_generate settings file w) as [Hs1 H1].
  destruct (mem_generate settings file
              (snd (run MemHost (generateFlashcards settings file) w))) as [Hs2 H2].
  cbv zeta in H1, H2.
  destruct (mem_prepare settings file w) as [o|clean] eqn:Ep.
  - destruct H1 as [Ho Hv].
    rewrite (mem_prepare_agree settings file w) in H2;
      [|exact Hs1 | now rewrite Hv].
    rewrite Ep in H2. destruct H2 as [Ho2 Hv2].
    split; [congruence|]. split; [now rewrite Hv2|].
    intros Hd. exfalso. apply (mem_prepare_not_done settings file w). congruence.
  - destruct H1 as [Hv Ho].
    destruct (mem_prepare_source _ _ _ _ Ep) as [content Hsrc].
    rewrite (mem_prepare_agree settings file w) in H2;
      [|exact Hs1 | rewrite Hv, Hsrc; now apply commit_keeps_source].
    rewrite Ep in H2. destruct H2 as [Hv2 Ho2].
    destruct (commit_twice settings file clean (vault w)) as [Hf Ht].
    cbv zeta in Hf, Ht. rewrite <- Hv in Hf, Ht.
    split; [rewrite Ho2, Ho; now rewrite Hf|].
    split; [now rewrite Hv2|].
    intros Hd. exists clean. split; [reflexivity|].
    rewrite Hv.
    destruct (write_vault_cases settings file clean (ensure_vault settings file (vault w)))
      as [[_ ->] | [[err Herr] _]].
    + apply lookup_insert_eq.
    + rewrite Ho, Herr in Hd. discriminate.
Qed.

(** The witness of C6: the run that replaces the artifact of an earlier
    run, and the run after it. *)
Lemma pipeline_idempotent_witness :
  let settings := DEFAULT_SETTINGS "Make cards" in
  let file := tfile_of_path "Books/Fables.md" in
  let w := example_world
             (Ok {| progress := []; value := JString ("Front :: Back") |}) in
  let r1 := run MemHost (generateFlashcards settings file) w in
  let r2 := run MemHost (generateFlashcards settings file) (snd r1) in
  fst r1 = Done /\ fst r2 = Done /\
  vault (snd r1) !! "Flashcards/Books/Fables.md"
  = Some (File ("#flashcards/Books/Fables" ++ LF ++ LF ++ "Front :: Back")) /\
  vault (snd r2) !! "Flashcards/Books/Fables.md"
  = vault (snd r1) !! "Flashcards/Books/Fables.md".
Proof.
  intros settings file w r1 r2.
  destruct (pipeline_idempotent settings file w) as (H1 & H2 & H3).
  assert (Hd : fst r1 = Done) by (vm_compute; reflexivity).
  split; [exact Hd|]. split; [fold r1 r2 in H1; now rewrite H1|].
  split; [vm_compute; reflexivity | exact H2].
Defined.

(** ** The invocation against an arbitrary host *)

(** The commit step does not call the generation service. *)
Lemma saveFlashcards_no_generation {W} (h : Handler W) settings original content (w : W) :
  omap generation_reply (trace h (saveFlashcards settings original content) w) = [].
Proof.
  unfold saveFlashcards, ensureFolders, writeArtifact, await.
  destruct (truthy (folderPath settings original)); prog_cbn.
  - host_next h. destruct r as [[|]|err]; prog_cbn.
    + host_next h. destruct r as [file| |]; prog_cbn; host_next h; reflexivity.
    + host_next h. host_next h. destruct r0 as [file| |]; prog_cbn; host_next h; reflexivity.
    + reflexivity.
  - host_next h. destruct r as [file| |]; prog_cbn; host_next h; reflexivity.
Qed.

(** C7: when the generation service answers with a result from which no
    text, or only white space, is extracted, the invocation ends in
    Failed(EmptyResponse) and has asked the host for no folder creation,
    no file creation and no modification. *)
Theorem empty_response_no_commit {W} (h : Handler W) (w : W)
  (settings : Settings) (file : TFile) (executed : ExecReply) :
  In (Ok executed) (generation_replies (trace h (generateFlashcards settings file) w)) ->
  blank (extractResponseText (value executed) (accumulated executed)) = true ->
  fst (run h (generateFlashcards settings file) w) = Failed EmptyResponse /\
  forallb (fun e => negb (is_mutation e)) (trace h (generateFlashcards settings file) w)
  = true.
Proof.
  intros Hin Hblank. revert Hin.
  unfold generation_replies, generateFlashcards.
  destruct (shouldSkipFile settings file); prog_cbn.
  { host_next h. intros []. }
  unfold try_catch, distill, await, getAIProviders. prog_cbn.
  host_next h. destruct r as [content|err]; prog_cbn.
  2: { host_next h. host_next h. intros []. }
  destruct (negb (truthy (trim content)) || _); prog_cbn.
  { host_next h. intros []. }
  host_next h. destruct r as [ai|]; prog_cbn.
  2: host_next h; destruct r as [ai|err]; prog_cbn; [|host_next h; intros []].
  all: destruct (selectProvider settings ai) as [provider|]; prog_cbn;
         [|host_next h; intros []].
  all: host_next h; host_next h; destruct r0 as [a|err]; prog_cbn;
         [|host_next h; host_next h; intros [H|[]]; discriminate H].
  all: destruct (blank (extractResponseText (value a) (accumulated a))) eqn:Eb;
         prog_cbn; [host_next h; host_next h; intros _; split; reflexivity|].
  all: intros [H|H]; [injection H as ->; congruence|]; exfalso; revert H.
  all: destruct (negb (truthy (sanitize _ _))); prog_cbn; [host_next h; intros []|].
  all: rewrite !trace_bind, !omap_app, !run_bind, (saveFlashcards_no_generation h).
  all: destruct (run h (saveFlashcards _ _ _) _) as [[[]|err] wsave]; prog_cbn.
  all: repeat host_next h; intros [].
Qed.

(** What an invocation asks the host to write: nothing, or once, the text
    composed from the sanitized text of the service's answer. *)
Lemma pipeline_writes {W} (h : Handler W) (w : W) settings file :
  writes (trace h (generateFlashcards settings file) w) = [] \/
  exists executed p,
    In (Ok executed) (generation_replies (trace h (generateFlashcards settings file) w)) /\
    writes (trace h (generateFlashcards settings file) w)
    = [(p, finalContent settings file
             (sanitize settings
                (default EmptyString
                   (extractResponseText (value executed) (accumulated executed)))))] /\
    (faithful_lookup h -> p = targetPath settings file).
Proof.
  unfold generation_replies, writes, generateFlashcards.
  destruct (shouldSkipFile settings file); prog_cbn.
  { host_next h. now left. }
  unfold try_catch, distill, await, getAIProviders. prog_cbn.
  host_next h. destruct r as [content|err]; prog_cbn.
  2: { host_next h. host_next h. now left. }
  destruct (negb (truthy (trim content)) || _); prog_cbn.
  { host_next h. now left. }
  host_next h. destruct r as [ai|]; prog_cbn.
  2: host_next h; destruct r as [ai|err]; prog_cbn; [|host_next h; now left].
  all: destruct (selectProvider settings ai) as [provider|]; prog_cbn;
         [|host_next h; now left].
  all: host_next h; host_next h; destruct r0 as [a|err]; prog_cbn;
         [|host_next h; host_next h; now left].
  all: destruct (blank (extractResponseText (value a) (accumulated a)));
         prog_cbn; [host_next h; host_next h; now left|].
  all: destruct (negb (truthy (sanitize _ _))); prog_cbn; [host_next h; now left|].
  all: rewrite !trace_bind, !omap_app, !run_bind, (saveFlashcards_no_generation h).
  all: match goal with
       | |- context [trace ?h0 (saveFlashcards ?s ?f ?c) ?w0] =>
           destruct (saveFlashcards_writes h0 s f c w0) as [Hw | (p & Hw & Hp)];
           unfold writes in Hw; rewrite Hw
       end.
  all: destruct (run h (saveFlashcards _ _ _) _) as [[[]|err] wsave]; prog_cbn.
  all: repeat host_next h.
  all: try (now left).
  all: right; exists a, p; split; [now left | split; [reflexivity | exact Hp]].
Qed.

(** The results the specification calls empty: the empty string, null
    and undefined, with nothing streamed. *)
Lemma empty_results_blank :
  blank (extractResponseText (JString EmptyString) EmptyString) = true /\
  blank (extractResponseText JNull EmptyString) = true /\
  blank (extractResponseText JUndefined EmptyString) = true.
Proof. repeat split; reflexivity. Qed.

(** On the in-memory host the vault after such an invocation is the
    vault before it. *)
Lemma empty_response_vault_unchanged settings file (w : World) :
  fst (run MemHost (generateFlashcards settings file) w) = Failed EmptyResponse ->
  vault (snd (run MemHost (generateFlashcards settings file) w)) = vault w.
Proof.
  intros Ho. destruct (mem_generate settings file w) as [_ H]. cbv zeta in H.
  destruct (mem_prepare settings file w) as [o|clean]; [now destruct H|].
  destruct H as [_ H]. rewrite Ho in H.
  destruct (fst (write_vault _ _ _ _)); discriminate H.
Qed.

(** The witness of C7: the service resolves to the empty string and
    streams nothing; the artifact of the earlier run stays. *)
Lemma empty_response_no_commit_witness :
  let settings := DEFAULT_SETTINGS "Make cards" in
  let file := tfile_of_path "Books/Fables.md" in
  let executed := {| progress := []; value := JString EmptyString |} in
  let w := example_world (Ok executed) in
  (fst (run MemHost (generateFlashcards settings file) w) = Failed EmptyResponse /\
   forallb (fun e => negb (is_mutation e))
           (trace MemHost (generateFlashcards settings file) w) = true) /\
  vault (snd (run MemHost (generateFlashcards settings file) w))
    !! "Flashcards/Books/Fables.md" = Some (File "OLD").
Proof.
  intros settings file executed w. split.
  - apply (empty_response_no_commit MemHost w settings file executed).
    + vm_compute. left. reflexivity.
    + reflexivity.
  - vm_compute. reflexivity.
Defined.

(** ** The content check recognises every artifact *)

(** Trimming the end keeps a prefix that ends in a character that is not
    white space. *)
Lemma trimEnd_keeps_prefix (p rest : string) (c : ascii) :
  is_space c = false ->
  exists rest', trimEnd (p ++ String c rest) = p ++ String c rest'.
Proof.
  intros Hc. induction p as [|a p [rest' IH]].
  - cbn [append trimEnd]. destruct (trimEnd rest) as [|b t].
    + rewrite Hc. now exists EmptyString.
    + now exists (String b t).
  - cbn [append trimEnd]. rewrite IH. exists rest'.
    destruct p; reflexivity.
Qed.

(** A composed text is the tag marker followed by the rest. *)
Lemma finalContent_marker settings original content :
  exists rest,
    finalContent settings original content
    = ("#" ++ flashcardTag settings) ++ String "/" rest.
Proof.
  rewrite finalContent_spelled. unfold tagLine.
  eexists. rewrite !append_assoc. cbn [append]. reflexivity.
Qed.

Lemma trim_finalContent settings original content :
  exists rest,
    trim (finalContent settings original content)
    = ("#" ++ flashcardTag settings ++ "/") ++ rest.
Proof.
  destruct (finalContent_marker settings original content) as [rest ->].
  unfold trim. cbn [append trimStart]. 
  change (is_space "#") with false. cbv iota.
  destruct (trimEnd_keeps_prefix ("#" ++ flashcardTag settings) rest "/" eq_refl)
    as [rest' H].
  cbn [append] in H. rewrite H. exists rest'.
  rewrite !append_assoc. reflexivity.
Qed.

(** The test of the content check is true on every composed text. *)
Lemma content_check_on_artifact settings settings' original content :
  flashcardTag settings' = flashcardTag settings ->
  negb (truthy (trim (finalContent settings' original content)))
  || startsWith (trim (finalContent settings' original content))
       ("#" ++ flashcardTag settings ++ "/") = true.
Proof.
  intros Ht. destruct (trim_finalContent settings' original content) as [rest ->].
  rewrite Ht, startsWith_append. apply orb_true_r.
Qed.

(** C10: a composed text begins with the marker the content check looks
    for, and an invocation that reads such a text, written under the same
    tag, ends in Skipped without a call to the generation service and
    without asking for any change of the vault. *)
Theorem artifact_is_skipped {W} (h : Handler W) (w w1 : W)
  (settings settings' : Settings) (file original : TFile) (content : string) :
  flashcardTag settings' = flashcardTag settings ->
  h (VaultRead file) w = (Ok (finalContent settings' original content), w1) ->
  startsWith (finalContent settings' original content)
             ("#" ++ flashcardTag settings ++ "/") = true /\
  fst (run h (generateFlashcards settings file) w) = Skipped /\
  generation_replies (trace h (generateFlashcards settings file) w) = [] /\
  forallb (fun e => negb (is_mutation e)) (trace h (generateFlashcards settings file) w)
  = true.
Proof.
  intros Ht Hread. split.
  { destruct (finalContent_marker settings' original content) as [rest ->].
    rewrite Ht. apply startsWith_iff. exists rest.
    rewrite !append_assoc. reflexivity. }
  unfold generation_replies, generateFlashcards.
  destruct (shouldSkipFile settings file); prog_cbn.
  { host_next h. repeat split; reflexivity. }
  unfold try_catch, distill, await. prog_cbn.
  rewrite Hread. prog_cbn.
  rewrite (content_check_on_artifact settings settings' original content Ht).
  prog_cbn. host_next h. repeat split; reflexivity.
Qed.

(** The witness of C10: the artifact of Books/Fables.md, moved out of the
    output tree, is skipped on its content. *)
Lemma artifact_is_skipped_witness :
  let settings := DEFAULT_SETTINGS "Make cards" in
  let source := tfile_of_path "Books/Fables.md" in
  let moved := tfile_of_path "Archive/Fables.md" in
  let w := with_vault {[ "Archive/Fables.md"
                         := File (finalContent settings source "Front :: Back") ]}
             (example_world (Ok {| progress := []; value := JString "more" |})) in
  shouldSkipFile settings moved = false /\
  fst (run MemHost (generateFlashcards settings moved) w) = Skipped /\
  generation_replies (trace MemHost (generateFlashcards settings moved) w) = [].
Proof.
  intros settings source moved w.
  destruct (artifact_is_skipped MemHost w w settings settings moved source
              "Front :: Back" eq_refl eq_refl) as (_ & Ho & Hg & _).
  split; [reflexivity | split; [exact Ho | exact Hg]].
Defined.

(** * Further properties of the code *)

(** ** The mirrored tree *)

(** X1: two notes have the same destination only if they are the same
    note: the mirrored path determines the source path. *)
Theorem mirrored_path_injective (settings : Settings) (f1 f2 : TFile) :
  targetPath settings f1 = targetPath settings f2 <-> path f1 = path f2.
Proof.
  unfold targetPath. split.
  - intros H. apply String.app_inj in H. now injection H.
  - now intros ->.
Qed.

(** X2: whatever is written to the destination of a note is itself
    skipped by the path test, under the settings it was written with. *)
Theorem destination_is_skipped (settings : Settings) (original : TFile)
  (name ext : string) :
  shouldSkipFile settings
    {| path := targetPath settings original; basename := name; extension := ext |}
  = true.
Proof.
  rewrite shouldSkipFile_tests. cbn [path]. unfold targetPath.
  change (replace_suffix "/" (flashcardRoot settings) ++ "/" ++ path original)
    with (replace_suffix "/" (flashcardRoot settings) ++ String "/" (path original)).
  assert (H : startsWith
            (replace_suffix "/" (flashcardRoot settings) ++ String "/" (path original))
            (replace_suffix "/" (flashcardRoot settings) ++ "/") = true).
  { apply startsWith_iff. exists (path original). now rewrite append_assoc. }
  rewrite H. now rewrite orb_true_r.
Qed.

Lemma append_nil_r (s : string) : s ++ EmptyString = s.
Proof. induction s as [|c s IH]; cbn; [reflexivity | now rewrite IH]. Qed.

(** Splitting at the separator and joining again gives the string back. *)
Lemma split_slash_go_nonempty (cur s : string) : split_slash_go cur s <> [].
Proof.
  revert cur. induction s as [|c s IH]; intros cur; cbn; [discriminate|].
  destruct (Ascii.eqb c "/"); [discriminate | apply IH].
Qed.

Lemma join_split_go (cur s : string) :
  join_slash (split_slash_go cur s) = cur ++ s.
Proof.
  revert cur. induction s as [|c s IH]; intros cur.
  - cbn. now rewrite append_nil_r.
  - cbn [split_slash_go]. destruct (Ascii.eqb c "/") eqn:E.
    + apply Ascii.eqb_eq in E. subst c.
      unfold join_slash in *. cbn [String.concat].
      destruct (split_slash_go EmptyString s) as [|x l] eqn:El.
      * now destruct (split_slash_go_nonempty EmptyString s).
      * rewrite <- El, (IH EmptyString). reflexivity.
    + rewrite IH, append_assoc. reflexivity.
Qed.

Lemma join_split (s : string) : join_slash (split_slash s) = s.
Proof. apply (join_split_go EmptyString). Qed.

Lemma join_snoc (l : list string) (x : string) :
  l <> [] -> join_slash (l ++ [x])%list = join_slash l ++ "/" ++ x.
Proof.
  unfold join_slash. induction l as [|a l IH]; intros H; [now destruct H|].
  destruct l as [|b l].
  - reflexivity.
  - cbn [app String.concat] in *. rewrite IH by discriminate.
    destruct (l ++ [x])%list eqn:E; [now destruct l|].
    now rewrite !append_assoc.
Qed.

(** A segment holds no separator. *)
Lemma split_slash_go_segments (cur s : string) :
  contains cur "/" = false ->
  Forall (fun seg => contains seg "/" = false) (split_slash_go cur s).
Proof.
  revert cur. induction s as [|c s IH]; intros cur Hc; cbn [split_slash_go].
  - now constructor.
  - destruct (Ascii.eqb c "/") eqn:E.
    + constructor; [exact Hc | now apply IH].
    + apply IH. clear IH. induction cur as [|a cur IHc].
      * cbn. now rewrite E.
      * cbn in Hc |- *. apply orb_false_iff in Hc as [Ha Hc].
        rewrite Ha. cbn. now apply IHc.
Qed.

Lemma split_slash_go_two (cur a b : string) :
  exists x y l, split_slash_go cur (a ++ String "/" b) = x :: y :: l.
Proof.
  revert cur. induction a as [|c a IH]; intros cur; cbn [append split_slash_go].
  - cbn. destruct (split_slash_go EmptyString b) as [|y l] eqn:E.
    + now destruct (split_slash_go_nonempty EmptyString b).
    + now exists cur, y, l.
  - destruct (Ascii.eqb c "/").
    + destruct (split_slash_go EmptyString (a ++ String "/" b)) as [|y l] eqn:E.
      * now destruct (split_slash_go_nonempty EmptyString (a ++ String "/" b)).
      * now exists cur, y, l.
    + apply IH.
Qed.

(** The destination is the folder ensured, a separator and the last
    segment. *)
Lemma destination_splits (settings : Settings) (original : TFile) :
  targetPath settings original
  = folderPath settings original ++ "/"
    ++ List.last (split_slash (targetPath settings original)) EmptyString.
Proof.
  unfold folderPath, slice_0_m1.
  set (target := targetPath settings original).
  destruct (split_slash_go_two EmptyString
              (replace_suffix "/" (flashcardRoot settings)) (path original))
    as (x & y & l & Hsplit).
  change (split_slash_go EmptyString
            (replace_suffix "/" (flashcardRoot settings) ++ String "/" (path original)))
    with (split_slash target) in Hsplit.
  assert (Hne : split_slash target <> []) by (rewrite Hsplit; discriminate).
  pose proof (app_removelast_last EmptyString Hne) as Hlast.
  rewrite <- join_snoc.
  - rewrite <- Hlast. symmetry. apply join_split.
  - rewrite Hsplit. cbn. destruct l; discriminate.
Qed.

(** X3: the folder the commit step ensures is the parent of the file it
    writes: the destination is that folder, a separator, and a file name
    without separator. *)
Theorem folder_is_parent_of_destination (settings : Settings) (original : TFile) :
  exists file_name,
    targetPath settings original = folderPath settings original ++ "/" ++ file_name /\
    contains file_name "/" = false.
Proof.
  exists (List.last (split_slash (targetPath settings original)) EmptyString).
  split; [apply destination_splits|].
  pose proof (split_slash_go_segments EmptyString (targetPath settings original) eq_refl)
    as Hall.
  rewrite Stdlib.Lists.List.Forall_forall in Hall. apply Hall.
  assert (Hne : split_slash (targetPath settings original) <> [])
    by apply split_slash_go_nonempty.
  pose proof (app_removelast_last EmptyString Hne) as Hlast.
  assert (Hin : In (List.last (split_slash (targetPath settings original)) EmptyString)
                   (removelast (split_slash (targetPath settings original))
                    ++ [List.last (split_slash (targetPath settings original))
                          EmptyString])%list).
  { apply in_app_iff. right. now left. }
  now rewrite <- Hlast in Hin.
Qed.

(** ** Trimming *)

Lemma trimEnd_cons_keep (c : ascii) (s : string) :
  is_space c = false -> trimEnd (String c s) = String c (trimEnd s).
Proof. intros Hc. cbn [trimEnd]. rewrite Hc. now destruct (trimEnd s). Qed.

Lemma trimEnd_inside (p rest : string) (c : ascii) :
  is_space c = false ->
  trimEnd (p ++ String c rest) = p ++ String c (trimEnd rest).
Proof.
  intros Hc. induction p as [|a p IH]; cbn [append].
  - now apply trimEnd_cons_keep.
  - cbn [trimEnd]. rewrite IH. now destruct p.
Qed.

Lemma trimEnd_spaces (ws : string) : all_space ws = true -> trimEnd ws = EmptyString.
Proof.
  induction ws as [|c ws IH]; intros H; [reflexivity|].
  cbn in H. apply andb_true_iff in H as [Hc Hw].
  cbn [trimEnd]. now rewrite (IH Hw), Hc.
Qed.

Lemma trimEnd_idem (s : string) : trimEnd (trimEnd s) = trimEnd s.
Proof.
  induction s as [|c s IH]; [reflexivity|].
  cbn [trimEnd]. destruct (trimEnd s) as [|b t] eqn:E.
  - destruct (is_space c) eqn:Hc; [reflexivity|]. cbn. now rewrite Hc.
  - cbn [trimEnd]. cbn [trimEnd] in IH. now rewrite IH.
Qed.

Lemma trimStart_head (s : string) :
  trimStart s = EmptyString \/
  exists c rest, trimStart s = String c rest /\ is_space c = false.
Proof.
  induction s as [|c s IH]; [now left|].
  cbn [trimStart]. destruct (is_space c) eqn:Hc; [exact IH|].
  right. now exists c, s.
Qed.

(** [trim] leaves a trimmed text as it is. *)
Lemma trim_idem (s : string) : trim (trim s) = trim s.
Proof.
  unfold trim. destruct (trimStart_head s) as [-> | (c & rest & -> & Hc)];
    [reflexivity|].
  rewrite (trimEnd_cons_keep c rest Hc). cbn [trimStart]. rewrite Hc.
  rewrite <- (trimEnd_cons_keep c rest Hc). apply trimEnd_idem.
Qed.

(** A text between white space, with first and last character that are
    not white space, is what [trim] returns. *)
Lemma trim_padded (ws1 ws2 body : string) (a z : ascii) :
  all_space ws1 = true -> all_space ws2 = true ->
  is_space a = false -> is_space z = false ->
  trim (ws1 ++ String a (body ++ String z ws2)) = String a (body ++ String z EmptyString).
Proof.
  intros H1 H2 Ha Hz. unfold trim.
  rewrite trimStart_spaces by exact H1. cbn [trimStart]. rewrite Ha.
  rewrite (trimEnd_cons_keep a _ Ha), (trimEnd_inside body ws2 z Hz).
  now rewrite (trimEnd_spaces ws2 H2).
Qed.

(** ** The settings tab *)

(** X4: the tag handler accepts the marker as the user sees it: typed as
    a hash, the label and a slash, with white space around it, it stores
    the bare label. *)
Theorem tag_marker_normalised (settings : Settings) (ws1 label ws2 : string) :
  all_space ws1 = true ->
  all_space ws2 = true ->
  flashcardTag (onChange_flashcardTag (ws1 ++ "#" ++ label ++ "/" ++ ws2) settings)
  = label.
Proof.
  intros H1 H2. cbn [flashcardTag onChange_flashcardTag].
  change (ws1 ++ "#" ++ label ++ "/" ++ ws2)
    with (ws1 ++ String "#" (label ++ String "/" ws2)).
  rewrite (trim_padded ws1 ws2 label "#" "/" H1 H2 eq_refl eq_refl).
  cbn [replace_leading_hash]. change (Ascii.eqb "#" "#") with true. cbv iota.
  change (label ++ String "/" EmptyString) with (label ++ "/").
  apply replace_suffix_app.
Qed.

(** The witness of X4. *)
Lemma tag_marker_normalised_witness :
  flashcardTag (onChange_flashcardTag (" #flashcards/" ++ LF)
                  (DEFAULT_SETTINGS EmptyString)) = "flashcards".
Proof.
  apply (tag_marker_normalised (DEFAULT_SETTINGS EmptyString) " " "flashcards" LF);
    reflexivity.
Defined.

(** X5: the stored output root never has white space at either end, so
    typing the same folder with stray blanks around it changes nothing. *)
Theorem root_is_trimmed (settings : Settings) (v : string) :
  trim (flashcardRoot (onChange_flashcardRoot v settings))
  = flashcardRoot (onChange_flashcardRoot v settings) /\
  onChange_flashcardRoot (trim v) settings = onChange_flashcardRoot v settings.
Proof.
  unfold onChange_flashcardRoot. cbn [flashcardRoot].
  now rewrite trim_idem.
Qed.

Lemma split_comma_go_plain (cur f rest : string) :
  has_comma f = false ->
  split_comma_go cur (f ++ rest) = split_comma_go (cur ++ f) rest.
Proof.
  revert cur. induction f as [|c f IH]; intros cur H.
  - cbn. now rewrite append_nil_r.
  - cbn in H. apply orb_false_iff in H as [Hc Hf].
    cbn [append split_comma_go]. rewrite Hc, (IH _ Hf), append_assoc. reflexivity.
Qed.

Lemma trim_after_spaces (ws f : string) :
  all_space ws = true -> trim (ws ++ f) = trim f.
Proof. intros H. unfold trim. now rewrite trimStart_spaces. Qed.

Lemma parse_shown_go (cur : string) (f : string) (fs : list string) :
  all_space cur = true ->
  Forall (fun f => truthy f = true /\ trim f = f /\ has_comma f = false) (f :: fs) ->
  List.filter truthy (map trim (split_comma_go cur (String.concat ", " (f :: fs))))
  = f :: fs.
Proof.
  revert cur f. induction fs as [|f2 fs IH]; intros cur f Hcur Hall.
  - inversion Hall as [|? ? (Ht & Htrim & Hc) _]; subst.
    cbn [String.concat].
    rewrite <- (append_nil_r f) at 1. rewrite (split_comma_go_plain _ _ _ Hc).
    cbn [split_comma_go map List.filter].
    rewrite (trim_after_spaces _ _ Hcur), Htrim, Ht. reflexivity.
  - inversion Hall as [|? ? (Ht & Htrim & Hc) Hrest]; subst.
    change (String.concat ", " (f :: f2 :: fs))
      with (f ++ String "," (String " " (String.concat ", " (f2 :: fs)))).
    rewrite (split_comma_go_plain _ _ _ Hc).
    cbn [split_comma_go]. change (Ascii.eqb "," ",") with true. cbv iota.
    change (Ascii.eqb " " ",") with false. cbv iota.
    cbn [map List.filter append].
    rewrite (trim_after_spaces _ _ Hcur), Htrim, Ht.
    f_equal. apply (IH " " f2 eq_refl Hrest).
Qed.

(** X6: the excluded folders survive the round trip through the
    settings tab: showing the list and storing the shown text again gives
    the same list, when no folder is empty, padded with white space or
    holds a comma. *)
Theorem excluded_folders_round_trip (settings other : Settings) :
  Forall (fun f => truthy f = true /\ trim f = f /\ has_comma f = false)
         (excludedFolders settings) ->
  excludedFolders (onChange_excludedFolders (shown_excludedFolders settings) other)
  = excludedFolders settings.
Proof.
  intros Hall. unfold shown_excludedFolders.
  cbn [excludedFolders onChange_excludedFolders].
  destruct (excludedFolders settings) as [|f fs]; [reflexivity|].
  now apply (parse_shown_go EmptyString).
Qed.

(** The witness of X6. *)
Lemma excluded_folders_round_trip_witness :
  let settings := {| flashcardRoot := "Flashcards"; flashcardTag := "flashcards";
                     selectedProviderId := EmptyString; systemPrompt := EmptyString;
                     excludedFolders := ["Templates"; "Private/Journal"; "My Notes"];
                     fileHeader := EmptyString |} in
  shown_excludedFolders settings = "Templates, Private/Journal, My Notes" /\
  excludedFolders (onChange_excludedFolders "Templates, Private/Journal, My Notes"
                     (DEFAULT_SETTINGS EmptyString))
  = ["Templates"; "Private/Journal"; "My Notes"].
Proof.
  intros settings. split; [reflexivity|].
  apply (excluded_folders_round_trip settings (DEFAULT_SETTINGS EmptyString)).
  repeat constructor.
Defined.

(** X7: whatever the user types, no stored excluded folder is empty or
    padded with white space; so an empty entry can never exclude the
    notes at the top of the vault. *)
Theorem stored_excluded_folders_clean (settings : Settings) (v : string) :
  Forall (fun f => f <> EmptyString /\ trim f = f)
         (excludedFolders (onChange_excludedFolders v settings)).
Proof.
  cbn [excludedFolders onChange_excludedFolders].
  apply Stdlib.Lists.List.Forall_forall. intros f Hin.
  apply filter_In in Hin as [Hin Ht].
  apply in_map_iff in Hin as [x [<- _]].
  split.
  - intros E. rewrite E in Ht. discriminate Ht.
  - apply trim_idem.
Qed.

(** ** Extraction and sanitation *)

Lemma JSON_stringify_2_container (raw : JsValue) :
  js_truthy raw && String.eqb (js_typeof raw) "object" = true ->
  exists dump, JSON_stringify_2 raw = Some dump.
Proof.
  unfold JSON_stringify_2.
  intros H. destruct raw as [| |b|z|s|items|fields]; cbn in H;
    rewrite ?andb_false_r in H; try discriminate H; cbn -[String.append].
  - destruct (map _ items); eexists; reflexivity.
  - destruct (flat_map _ fields); eexists; reflexivity.
Qed.

(** X8: the extraction yields null only when nothing came back at all:
    no accumulated text and a falsy result (undefined, null, false, 0 or
    the empty string).  An object or array always yields a text. *)
Theorem extraction_null_iff (raw : JsValue) (accumulatedText : string) :
  extractResponseText raw accumulatedText = None <->
  accumulatedText = EmptyString /\ js_truthy raw = false.
Proof.
  unfold extractResponseText.
  set (text := js_or _ _).
  destruct accumulatedText as [|c acc]; cbn [String.length Nat.ltb Nat.leb].
  2: { destruct raw as [| |b|z|[|a s]|items|fields];
         (split; [intros H; discriminate H | intros [H _]; discriminate H]). }
  assert (Hcontainer :
    js_truthy raw && String.eqb (js_typeof raw) "object" = true ->
    match text with
    | JString s => Some s
    | _ => JSON_stringify_2 raw
    end <> None).
  { intros Eobj. destruct (JSON_stringify_2_container raw Eobj) as [dump ->].
    destruct text; discriminate. }
  destruct raw as [| |[|]|z|[|a s]|items|fields]; cbn [js_truthy js_typeof andb] in *;
    change (String.eqb "undefined" "object") with false;
    change (String.eqb "boolean" "object") with false;
    change (String.eqb "number" "object") with false;
    change (String.eqb "string" "object") with false;
    change (String.eqb "object" "object") with true in *;
    rewrite ?andb_false_r; cbv iota;
    try (split; [intros _; split; reflexivity | reflexivity]);
    try (split; [intros H; discriminate H | intros [_ H]; discriminate H]);
    try (split; [intros H; now destruct (Hcontainer eq_refl) | intros [_ H]; discriminate H]).
  destruct (Z.eqb z 0); cbn;
    [split; [intros _; split; reflexivity | reflexivity]
    |split; [intros H; discriminate H | intros [_ H]; discriminate H]].
Qed.

(** X9: the sanitized text has no white space at either end. *)
Theorem sanitized_text_is_trimmed (settings : Settings) (text : string) :
  trim (sanitize settings text) = sanitize settings text.
Proof.
  unfold sanitize.
  destruct (startsWith _ _); apply trim_idem.
Qed.

(** ** Provider selection *)

Lemma find_id_is (v : JsValue) (ps : list IAIProvider) (p : IAIProvider) :
  List.find (id_is v) ps = Some p -> In p ps /\ v = JString (id p).
Proof.
  intros H. apply find_some in H as [Hin H]. split; [exact Hin|].
  destruct v; try discriminate H. cbn in H. apply String.eqb_eq in H. now subst.
Qed.

(** X10: the provider selected is always one of the providers the
    service lists, and there is none only when the list is empty. *)
Theorem selected_provider_is_listed (settings : Settings) (ai : IAIProvidersService) :
  (forall p, selectProvider settings ai = Some p -> In p (providers ai)) /\
  (selectProvider settings ai = None <-> providers ai = []).
Proof.
  unfold selectProvider. split.
  - intros p.
    destruct (truthy (selectedProviderId settings));
      [destruct (List.find _ (providers ai)) as [found|] eqn:E1;
         [intros H; injection H as <-; now apply find_id_is in E1|]|];
      (destruct (js_truthy (mainId ai));
         [destruct (List.find (id_is (mainId ai)) (providers ai)) as [found|] eqn:E2;
            [intros H; injection H as <-; now apply find_id_is in E2|]|]);
      destruct (providers ai); cbn; intros H; try discriminate H;
      injection H as <-; now left.
  - split.
    + destruct (truthy (selectedProviderId settings));
        [destruct (List.find _ (providers ai)); [discriminate|]|];
        (destruct (js_truthy (mainId ai));
           [destruct (List.find (id_is (mainId ai)) (providers ai)); [discriminate|]|]);
        destruct (providers ai); cbn; intros H; try discriminate H; reflexivity.
    + intros ->. cbn.
      destruct (truthy (selectedProviderId settings)), (js_truthy (mainId ai));
        reflexivity.
Qed.

(** X11: a configured provider that is still listed wins over the main
    provider of the service and over the order of the list. *)
Theorem configured_provider_wins (settings : Settings) (ai : IAIProvidersService)
  (p : IAIProvider) :
  selectedProviderId settings <> EmptyString ->
  In p (providers ai) ->
  id p = selectedProviderId settings ->
  exists found,
    selectProvider settings ai = Some found /\
    id found = selectedProviderId settings.
Proof.
  intros Hne Hin Hid. unfold selectProvider, truthy.
  destruct (String.eqb (selectedProviderId settings) EmptyString) eqn:E.
  { apply String.eqb_eq in E. now destruct Hne. }
  cbn [negb].
  destruct (List.find (id_is (JString (selectedProviderId settings))) (providers ai))
    as [found|] eqn:Ef.
  - exists found. split; [reflexivity|].
    apply find_id_is in Ef as [_ Hv]. now injection Hv.
  - exfalso. apply (find_none _ _ Ef p) in Hin. cbn in Hin.
    rewrite Hid, String.eqb_refl in Hin. discriminate Hin.
Qed.

(** The witness of X11. *)
Lemma configured_provider_wins_witness :
  let a := {| id := "a"; name := "A" |} in
  let b := {| id := "b"; name := "B" |} in
  let settings := {| flashcardRoot := "Flashcards"; flashcardTag := "flashcards";
                     selectedProviderId := "b"; systemPrompt := EmptyString;
                     excludedFolders := []; fileHeader := EmptyString |} in
  exists found,
    selectProvider settings {| providers := [a; b]; mainId := JString "a" |} = Some found /\
    id found = "b".
Proof.
  intros a b settings.
  apply (configured_provider_wins settings {| providers := [a; b]; mainId := JString "a" |} b).
  - discriminate.
  - right. now left.
  - reflexivity.
Defined.

(** X12: without a configured provider that is listed, the main provider
    of the service is selected when it is listed, and the first provider
    of the list otherwise. *)
Theorem main_provider_then_first (settings : Settings) (ai : IAIProvidersService) :
  (selectedProviderId settings = EmptyString \/
   forall p, In p (providers ai) -> id p <> selectedProviderId settings) ->
  (forall m p, mainId ai = JString m -> m <> EmptyString ->
               In p (providers ai) -> id p = m ->
               exists found, selectProvider settings ai = Some found /\ id found = m) /\
  ((forall p, In p (providers ai) -> mainId ai <> JString (id p)) ->
   selectProvider settings ai = head (providers ai)).
Proof.
  intros Hconf.
  assert (Hnone : (if truthy (selectedProviderId settings)
                   then List.find (id_is (JString (selectedProviderId settings)))
                                  (providers ai)
                   else None) = None).
  { destruct Hconf as [-> | Hno]; [reflexivity|].
    destruct (truthy (selectedProviderId settings)); [|reflexivity].
    destruct (List.find _ (providers ai)) as [found|] eqn:Ef; [|reflexivity].
    apply find_id_is in Ef as [Hin Hv]. injection Hv as Hv.
    now destruct (Hno found Hin). }
  unfold selectProvider. rewrite Hnone. split.
  - intros m p Hm Hne Hin Hid. rewrite Hm. cbn [js_truthy]. unfold truthy.
    destruct (String.eqb m EmptyString) eqn:E.
    { apply String.eqb_eq in E. now destruct Hne. }
    cbn [negb].
    destruct (List.find (id_is (JString m)) (providers ai)) as [found|] eqn:Ef.
    + exists found. split; [reflexivity|].
      apply find_id_is in Ef as [_ Hv]. now injection Hv.
    + exfalso. apply (find_none _ _ Ef p) in Hin. cbn in Hin.
      rewrite Hid, String.eqb_refl in Hin. discriminate Hin.
  - intros Hno. destruct (js_truthy (mainId ai)); [|reflexivity].
    destruct (List.find (id_is (mainId ai)) (providers ai)) as [found|] eqn:Ef;
      [|reflexivity].
    apply find_id_is in Ef as [Hin Hv]. now destruct (Hno found Hin).
Qed.

(** The witness of X12. *)
Lemma main_provider_then_first_witness :
  let a := {| id := "a"; name := "A" |} in
  let b := {| id := "b"; name := "B" |} in
  let stale := {| flashcardRoot := "Flashcards"; flashcardTag := "flashcards";
                  selectedProviderId := "gone"; systemPrompt := EmptyString;
                  excludedFolders := []; fileHeader := EmptyString |} in
  (exists found,
      selectProvider stale {| providers := [a; b]; mainId := JString "b" |} = Some found /\
      id found = "b") /\
  selectProvider stale {| providers := [a; b]; mainId := JUndefined |} = Some a.
Proof.
  intros a b stale. split.
  - destruct (main_provider_then_first stale
                {| providers := [a; b]; mainId := JString "b" |}) as [H _].
    + right. intros p [<- | [<- | []]]; discriminate.
    + apply (H "b" b); [reflexivity | discriminate | right; now left | reflexivity].
  - destruct (main_provider_then_first stale
                {| providers := [a; b]; mainId := JUndefined |}) as [_ H].
    + right. intros p [<- | [<- | []]]; discriminate.
    + apply H. intros p _. discriminate.
Defined.

(** ** The invocation, branch by branch *)

(** The commit step only talks to the vault. *)
Lemma saveFlashcards_actions {W} (h : Handler W) settings original content (w : W) :
  Forall (fun e => commit_action (ev_action e) = true)
         (trace h (saveFlashcards settings original content) w).
Proof.
  unfold saveFlashcards, ensureFolders, writeArtifact, await.
  destruct (truthy (folderPath settings original)); prog_cbn.
  - host_next h. destruct r as [[|]|err]; prog_cbn.
    + host_next h. destruct r as [file| |]; prog_cbn; host_next h;
        repeat constructor.
    + host_next h. host_next h. destruct r0 as [file| |]; prog_cbn; host_next h;
        repeat constructor.
    + repeat constructor.
  - host_next h. destruct r as [file| |]; prog_cbn; host_next h; repeat constructor.
Qed.

Lemma saveFlashcards_silent {W B} (h : Handler W) settings original content (w : W)
  (obs : event -> option B) :
  (forall e, commit_action (ev_action e) = true -> obs e = None) ->
  omap obs (trace h (saveFlashcards settings original content) w) = [].
Proof.
  intros Hobs.
  pose proof (saveFlashcards_actions h settings original content w) as H.
  induction H as [|e l He _ IH]; [reflexivity|].
  cbn. now rewrite (Hobs e He), IH.
Qed.

Lemma read_reply_silent (e : event) :
  commit_action (ev_action e) = true -> read_reply e = None.
Proof. destruct e as [[] r]; cbn; congruence. Qed.

Lemma obtained_handle_silent (e : event) :
  commit_action (ev_action e) = true -> obtained_handle e = None.
Proof. destruct e as [[] r]; cbn; congruence. Qed.

Lemma wait_rejection_silent (e : event) :
  commit_action (ev_action e) = true -> wait_rejection e = None.
Proof. destruct e as [[] r]; cbn; congruence. Qed.

Lemma generation_call_silent (e : event) :
  commit_action (ev_action e) = true -> generation_call e = None.
Proof. destruct e as [[] r]; cbn; congruence. Qed.

Lemma generation_reply_silent (e : event) :
  commit_action (ev_action e) = true -> generation_reply e = None.
Proof. destruct e as [[] r]; cbn; congruence. Qed.

Lemma notice_text_silent (e : event) :
  commit_action (ev_action e) = true -> notice_text e = None.
Proof. destruct e as [[] r]; cbn; congruence. Qed.

(** Every branch of an invocation, up to the commit step. *)
Ltac walk_provider h :=
  destruct (selectProvider _ _) as [provider|] eqn:Esel; prog_cbn;
  [ host_next h;
    let ex := fresh "ex" in
    let wx := fresh "wx" in
    match goal with
    | |- context [h (AiExecute ?p ?q) ?w] =>
        destruct (h (AiExecute p q) w) as [ex wx]; cbn in ex; prog_cbn
    end;
    destruct ex as [executed|xerr]; prog_cbn;
    [ destruct (blank (extractResponseText (value executed) (accumulated executed)))
        eqn:Eblank; prog_cbn;
      [ repeat host_next h
      | destruct (negb (truthy (sanitize _ _))) eqn:Eclean; prog_cbn;
        [ repeat host_next h | ] ]
    | repeat host_next h ]
  | repeat host_next h ].

Ltac walk h :=
  unfold generateFlashcards;
  destruct (shouldSkipFile _ _) eqn:Eskip; prog_cbn;
  [ repeat host_next h
  | unfold try_catch, distill, await, getAIProviders; prog_cbn;
    let rd := fresh "rd" in
    let wr := fresh "wr" in
    match goal with
    | |- context [h (VaultRead ?f) ?w] =>
        destruct (h (VaultRead f) w) as [rd wr]; cbn in rd; prog_cbn
    end;
    destruct rd as [content|rerr]; prog_cbn;
    [ destruct (negb (truthy (trim content)) || _) eqn:Echeck; prog_cbn;
      [ repeat host_next h
      | let app := fresh "app" in
        let wa := fresh "wa" in
        match goal with
        | |- context [h AppAiProviders ?w] =>
            destruct (h AppAiProviders w) as [app wa]; cbn in app; prog_cbn
        end;
        destruct app as [ai|]; prog_cbn;
        [ walk_provider h
        | let wt := fresh "wt" in
          let ww := fresh "ww" in
          match goal with
          | |- context [h WaitForAI ?w] =>
              destruct (h WaitForAI w) as [wt ww]; cbn in wt; prog_cbn
          end;
          destruct wt as [ai|werr]; prog_cbn;
          [ walk_provider h | repeat host_next h ] ] ]
    | repeat host_next h ] ].

(** The commit leaf: split the trace at the commit step and name its
    result. *)
Ltac commit_leaf h :=
  rewrite ?trace_bind, ?omap_app, ?run_bind, ?forallb_app, ?writes_app;
  rewrite ?(saveFlashcards_silent h _ _ _ _ read_reply read_reply_silent),
          ?(saveFlashcards_silent h _ _ _ _ obtained_handle obtained_handle_silent),
          ?(saveFlashcards_silent h _ _ _ _ wait_rejection wait_rejection_silent),
          ?(saveFlashcards_silent h _ _ _ _ generation_call generation_call_silent),
          ?(saveFlashcards_silent h _ _ _ _ generation_reply generation_reply_silent),
          ?(saveFlashcards_silent h _ _ _ _ notice_text notice_text_silent).

(** X13: a note on a skipped path is never read: the invocation ends in
    Skipped after one notice, with no call to the vault or the service. *)
Theorem skipped_path_never_read {W} (h : Handler W) (w : W)
  (settings : Settings) (file : TFile) :
  shouldSkipFile settings file = true ->
  fst (run h (generateFlashcards settings file) w) = Skipped /\
  map ev_action (trace h (generateFlashcards settings file) w)
  = [NewNotice "File is in an excluded folder or flashcard root"].
Proof.
  intros Hskip. unfold generateFlashcards. rewrite Hskip. prog_cbn.
  host_next h. split; reflexivity.
Qed.

(** The witness of X13. *)
Lemma skipped_path_never_read_witness :
  let settings := DEFAULT_SETTINGS "Make cards" in
  let file := tfile_of_path "Templates/Daily.md" in
  let w := example_world (Ok {| progress := []; value := JString "Front :: Back" |}) in
  fst (run MemHost (generateFlashcards settings file) w) = Skipped /\
  map ev_action (trace MemHost (generateFlashcards settings file) w)
  = [NewNotice "File is in an excluded folder or flashcard root"].
Proof.
  intros settings file w.
  apply (skipped_path_never_read MemHost w settings file). reflexivity.
Defined.

(** X14: a note whose text is empty or white space only ends in Skipped:
    no service handle is asked for, nothing is generated and the vault is
    not touched. *)
Theorem blank_note_skipped {W} (h : Handler W) (w : W)
  (settings : Settings) (file : TFile) (note : string) :
  In (Ok note) (omap read_reply (trace h (generateFlashcards settings file) w)) ->
  trim note = EmptyString ->
  fst (run h (generateFlashcards settings file) w) = Skipped /\
  omap generation_call (trace h (generateFlashcards settings file) w) = [] /\
  forallb (fun e => negb (is_mutation e)) (trace h (generateFlashcards settings file) w)
  = true.
Proof.
  intros Hin Hblank. revert Hin. walk h.
  all: try commit_leaf h.
  all: try (destruct (run h (saveFlashcards _ _ _) _) as [[[]|serr] wsave]; prog_cbn;
            repeat host_next h).
  all: try (intros [Hc|[]]; try discriminate Hc; injection Hc as Hc; subst).
  all: try (intros []).
  all: try (repeat split; reflexivity).
  all: exfalso; rewrite Hblank in Echeck; discriminate Echeck.
Qed.

(** Solving the branches an observation rules out. *)
Ltac leaves h :=
  try commit_leaf h;
  try (destruct (run h (saveFlashcards _ _ _) _) as [[[]|serr] wsave]; prog_cbn;
       repeat host_next h).

Ltac single_reply :=
  try (intros [Hc|[]]; try discriminate Hc; injection Hc as Hc; subst);
  try (intros []).

(** X15: when the note cannot be read, the invocation ends in the failed
    state with the error of the read; it shows one notice, with the
    message of the error, and calls neither the service nor any write. *)
Theorem unreadable_note_fails {W} (h : Handler W) (w : W)
  (settings : Settings) (file : TFile) (err : JsError) :
  In (Throw err) (omap read_reply (trace h (generateFlashcards settings file) w)) ->
  fst (run h (generateFlashcards settings file) w) = Failed (Caught err) /\
  omap generation_call (trace h (generateFlashcards settings file) w) = [] /\
  forallb (fun e => negb (is_mutation e)) (trace h (generateFlashcards settings file) w)
  = true /\
  omap notice_text (trace h (generateFlashcards settings file) w)
  = ["Failed to distill flashcards: "
     ++ (if truthy (message err) then message err else error_String err)].
Proof.
  intros Hin. revert Hin. walk h.
  all: leaves h.
  all: single_reply.
  all: repeat split; reflexivity.
Qed.

(** X16: a rejected [waitForAI] is not reported as a failure of its own:
    the invocation ends in ProviderUnavailable, with no call to the
    service and no change of the vault. *)
Theorem missing_service_is_unavailable {W} (h : Handler W) (w : W)
  (settings : Settings) (file : TFile) (err : JsError) :
  In err (omap wait_rejection (trace h (generateFlashcards settings file) w)) ->
  fst (run h (generateFlashcards settings file) w) = Failed ProviderUnavailable /\
  omap generation_call (trace h (generateFlashcards settings file) w) = [] /\
  forallb (fun e => negb (is_mutation e)) (trace h (generateFlashcards settings file) w)
  = true.
Proof.
  intros Hin. revert Hin. walk h.
  all: leaves h.
  all: try (intros [Hc|[]]).
  all: try (intros []).
  all: repeat split; reflexivity.
Qed.

Lemma selectProvider_nil (settings : Settings) (ai : IAIProvidersService) :
  providers ai = [] -> selectProvider settings ai = None.
Proof.
  intros E. unfold selectProvider. rewrite E. cbn.
  now destruct (truthy (selectedProviderId settings)), (js_truthy (mainId ai)).
Qed.

(** X17: a service that lists no provider ends the invocation in
    NoProvider, with no call to the service and no change of the vault. *)
Theorem empty_provider_list_fails {W} (h : Handler W) (w : W)
  (settings : Settings) (file : TFile) (handle : IAIProvidersService) :
  In handle (omap obtained_handle (trace h (generateFlashcards settings file) w)) ->
  providers handle = [] ->
  fst (run h (generateFlashcards settings file) w) = Failed NoProvider /\
  omap generation_call (trace h (generateFlashcards settings file) w) = [] /\
  forallb (fun e => negb (is_mutation e)) (trace h (generateFlashcards settings file) w)
  = true.
Proof.
  intros Hin Hnil. revert Hin. walk h.
  all: leaves h.
  all: try (intros [Hc|[]]; subst).
  all: try (intros []).
  all: try (rewrite (selectProvider_nil _ _ Hnil) in Esel; discriminate Esel).
  all: repeat split; reflexivity.
Qed.

(** X18: when the generation service rejects the request, the invocation
    ends in the failed state with that error and asks for no write. *)
Theorem rejected_generation_fails {W} (h : Handler W) (w : W)
  (settings : Settings) (file : TFile) (err : JsError) :
  In (Throw err) (generation_replies (trace h (generateFlashcards settings file) w)) ->
  fst (run h (generateFlashcards settings file) w) = Failed (Caught err) /\
  forallb (fun e => negb (is_mutation e)) (trace h (generateFlashcards settings file) w)
  = true.
Proof.
  intros Hin. revert Hin. unfold generation_replies. walk h.
  all: leaves h.
  all: single_reply.
  all: repeat split; reflexivity.
Qed.

(** X19: an answer that holds text, but only a think span or the bare
    tag marker, ends the invocation in EmptyAfterSanitize with no change
    of the vault. *)
Theorem noise_only_answer_fails {W} (h : Handler W) (w : W)
  (settings : Settings) (file : TFile) (answer : ExecReply) :
  In (Ok answer) (generation_replies (trace h (generateFlashcards settings file) w)) ->
  blank (extractResponseText (value answer) (accumulated answer)) = false ->
  sanitize settings
    (default EmptyString (extractResponseText (value answer) (accumulated answer)))
  = EmptyString ->
  fst (run h (generateFlashcards settings file) w) = Failed EmptyAfterSanitize /\
  forallb (fun e => negb (is_mutation e)) (trace h (generateFlashcards settings file) w)
  = true.
Proof.
  intros Hin Hblank Hclean. revert Hin. unfold generation_replies. walk h.
  all: leaves h.
  all: single_reply.
  all: try (repeat split; reflexivity).
  all: try congruence.
  all: rewrite Hclean in Eclean; discriminate Eclean.
Qed.

(** X20: the vault is touched only with a text to write: when an
    invocation asks for a folder or file to be created or modified, the
    service has answered and the answer, once sanitized, is not empty. *)
Theorem vault_touched_only_with_text {W} (h : Handler W) (w : W)
  (settings : Settings) (file : TFile) :
  existsb is_mutation (trace h (generateFlashcards settings file) w) = true ->
  exists answer,
    In (Ok answer) (generation_replies (trace h (generateFlashcards settings file) w)) /\
    blank (extractResponseText (value answer) (accumulated answer)) = false /\
    sanitize settings
      (default EmptyString (extractResponseText (value answer) (accumulated answer)))
    <> EmptyString.
Proof.
  unfold generation_replies. walk h.
  all: try discriminate.
  all: intros _; exists executed.
  all: split; [now left|]. 
  all: split; [exact Eblank|].
  all: intros E; rewrite E in Eclean; discriminate Eclean.
Qed.

(** The commit step, branch by branch: what the existence test, the
    folder creation and the write were answered, and the result. *)
Lemma saveFlashcards_shape {W} (h : Handler W) settings original content (w : W) :
  let t := trace h (saveFlashcards settings original content) w in
  let r := fst (run h (saveFlashcards settings original content) w) in
  (exists err,
      omap exists_reply t = [Throw err] /\ omap folder_creation_reply t = [] /\
      omap write_reply t = [] /\ writes t = [] /\ r = Throw err) \/
  (exists x,
      omap write_reply t = [x] /\ r = x /\
      ((omap exists_reply t = [] \/ omap exists_reply t = [Ok true]) /\
       omap folder_creation_reply t = []
       \/ omap exists_reply t = [Ok false] /\
          exists c, omap folder_creation_reply t = [c])).
Proof.
  cbv zeta. unfold saveFlashcards, ensureFolders, writeArtifact, await.
  destruct (truthy (folderPath settings original)); prog_cbn.
  - host_next h. destruct r as [[|]|err]; prog_cbn.
    + host_next h. destruct r as [file| |]; prog_cbn; host_next h;
        right; eexists; repeat split; left; split; [right| |right| |right|];
        reflexivity.
    + host_next h. host_next h. destruct r0 as [file| |]; prog_cbn; host_next h;
        right; eexists; repeat split; right; split; try reflexivity;
        eexists; reflexivity.
    + left. exists err. repeat split; reflexivity.
  - host_next h. destruct r as [file| |]; prog_cbn; host_next h;
      right; eexists; repeat split; left; split; [left| |left| |left|];
      reflexivity.
Qed.

(** X21: the invocation ends in Done exactly when the write was
    accepted, and a rejected write ends it in the failed state with the
    error of the write. *)
Theorem done_iff_write_accepted {W} (h : Handler W) (w : W)
  (settings : Settings) (file : TFile) :
  (fst (run h (generateFlashcards settings file) w) = Done <->
   In (Ok tt) (omap write_reply (trace h (generateFlashcards settings file) w))) /\
  (forall err,
      In (Throw err) (omap write_reply (trace h (generateFlashcards settings file) w)) ->
      fst (run h (generateFlashcards settings file) w) = Failed (Caught err)).
Proof.
  walk h.
  all: try (split; [split; [discriminate | intros []] | intros err0 []]).
  all: rewrite !trace_bind, !omap_app, !run_bind.
  all: match goal with
       | |- context [trace ?h0 (saveFlashcards ?s ?f ?c) ?w0] =>
           destruct (saveFlashcards_shape h0 s f c w0)
             as [(e & _ & _ & Hw & _ & Hr) | (x & Hw & Hr & _)];
           cbv zeta in Hw, Hr; rewrite Hw;
           let rs := fresh "rs" in
           let ws := fresh "ws" in
           destruct (run h0 (saveFlashcards s f c) w0) as [rs ws];
           cbn [fst] in Hr; subst rs
       end.
  all: prog_cbn; repeat host_next h.
  all: try (split; [split; [discriminate | intros []] | intros err0 []]).
  all: destruct x as [[]|e]; prog_cbn; repeat host_next h.
  all: split; [split|].
  all: try (intros _; now left).
  all: try reflexivity.
  all: try discriminate.
  all: try (intros [Hc|[]]; discriminate Hc).
  all: try (intros err0 [Hc|[]]; try discriminate Hc; now injection Hc as ->).
Qed.

(** A trace without a folder creation and without a write changes
    nothing. *)
Lemma no_mutation_from_observations (t : list event) :
  omap folder_creation_reply t = [] -> writes t = [] ->
  forallb (fun e => negb (is_mutation e)) t = true.
Proof.
  unfold writes. induction t as [|[act r] t IH]; intros Hc Hw; [reflexivity|].
  destruct act; cbn in Hc, Hw |- *; try discriminate; now apply IH.
Qed.

(** X22: an error of the existence test, unlike one of the folder
    creation, is not swallowed: the invocation ends in the failed state
    with that error, and neither a folder creation nor a write is asked
    for. *)
Theorem exists_rejection_aborts {W} (h : Handler W) (w : W)
  (settings : Settings) (file : TFile) (err : JsError) :
  In (Throw err) (omap exists_reply (trace h (generateFlashcards settings file) w)) ->
  fst (run h (generateFlashcards settings file) w) = Failed (Caught err) /\
  forallb (fun e => negb (is_mutation e)) (trace h (generateFlashcards settings file) w)
  = true.
Proof.
  intros Hin. revert Hin. walk h.
  all: try ((let Hf := fresh in intro Hf; exact (False_ind _ Hf))).
  all: rewrite !trace_bind, !omap_app, !run_bind, !forallb_app.
  all: match goal with
       | |- context [trace ?h0 (saveFlashcards ?s ?f ?c) ?w0] =>
           destruct (saveFlashcards_shape h0 s f c w0)
             as [(e & He & Hc & _ & Hw & Hr)
                | (x & _ & _ & [[[He | He] _] | [He _]])];
           cbv zeta in *; rewrite He
       end.
  all: try (prog_cbn; intros [Hx|Hx]; [discriminate Hx|]; revert Hx).
  all: try (destruct (run h (saveFlashcards _ _ _) _) as [rs ws];
            destruct rs as [[]|serr]; prog_cbn; repeat host_next h; (let Hf := fresh in intro Hf; exact (False_ind _ Hf))).
  all: match goal with
       | |- context [run ?h0 (saveFlashcards ?s ?f ?c) ?w0] =>
           let rs := fresh "rs" in
           let ws := fresh "ws" in
           destruct (run h0 (saveFlashcards s f c) w0) as [rs ws];
           cbn [fst] in Hr; subst rs
       end.
  all: prog_cbn; repeat host_next h.
  all: intros [Hx|[]]; injection Hx as ->.
  all: split; [reflexivity|].
  all: rewrite !andb_true_r.
  all: now apply no_mutation_from_observations.
Qed.

(** X23: the generation service is called at most once, with the
    provider selected from the handle that was handed out and with the
    prompt of the settings, a blank line, and the text of the note as it
    was read; the note is then neither blank nor an artifact. *)
Theorem generation_request_shape {W} (h : Handler W) (w : W)
  (settings : Settings) (file : TFile) :
  length (omap generation_call (trace h (generateFlashcards settings file) w)) <= 1 /\
  Forall
    (fun call =>
       exists note handle,
         In (Ok note) (omap read_reply (trace h (generateFlashcards settings file) w)) /\
         In handle (omap obtained_handle (trace h (generateFlashcards settings file) w)) /\
         selectProvider settings handle = Some (fst call) /\
         snd call = systemPrompt settings ++ LF ++ LF ++ note /\
         truthy (trim note) = true /\
         startsWith (trim note) ("#" ++ flashcardTag settings ++ "/") = false)
    (omap generation_call (trace h (generateFlashcards settings file) w)).
Proof.
  walk h.
  all: leaves h.
  all: split; [cbn; lia|].
  all: try (now constructor).
  all: constructor; [|constructor].
  all: apply orb_false_iff in Echeck as [Et Es]; apply negb_false_iff in Et.
  all: exists content, ai; cbn [fst snd].
  all: repeat split; try assumption; try reflexivity; now left.
Qed.

(** X24: a folder creation is asked for at most once, and only after the
    existence test has answered that the folder is missing. *)
Theorem folder_created_only_when_missing {W} (h : Handler W) (w : W)
  (settings : Settings) (file : TFile) :
  omap folder_creation_reply (trace h (generateFlashcards settings file) w) = [] \/
  In (Ok false) (omap exists_reply (trace h (generateFlashcards settings file) w)) /\
  length (omap folder_creation_reply (trace h (generateFlashcards settings file) w)) = 1.
Proof.
  walk h.
  all: try (left; reflexivity).
  all: rewrite !trace_bind, !omap_app, !run_bind.
  all: match goal with
       | |- context [trace ?h0 (saveFlashcards ?s ?f ?c) ?w0] =>
           destruct (saveFlashcards_shape h0 s f c w0)
             as [(e & He & Hc & _)
                | (x & _ & _ & [[_ Hc] | [He (c0 & Hc)]])];
           cbv zeta in *; rewrite ?He, Hc;
           destruct (run h0 (saveFlashcards s f c) w0) as [[[]|serr] ws]
       end.
  all: prog_cbn; repeat host_next h.
  all: try (left; reflexivity).
  all: right; split; [now left | reflexivity].
Qed.

(** X25: the success notice is shown exactly when the invocation ends in
    Done. *)
Theorem success_notice_iff_done {W} (h : Handler W) (w : W)
  (settings : Settings) (file : TFile) :
  fst (run h (generateFlashcards settings file) w) = Done <->
  In ("Flashcards distilled • " ++ basename file)
     (omap notice_text (trace h (generateFlashcards settings file) w)).
Proof.
  walk h.
  all: leaves h.
  all: split; try discriminate; try (intros _; reflexivity);
       try (intros _; right; now left).
  all: cbn [In]; intros Hin;
       repeat (destruct Hin as [Hin|Hin]; [cbn in Hin; discriminate Hin|]);
       exact (False_ind _ Hin).
Qed.

(** ** The vault around the artifact *)

(** Folder creation keeps every entry there is. *)
Lemma mem_createFolder_keeps p (v : gmap string node) q n :
  v !! q = Some n -> snd (mem_createFolder p v) !! q = Some n.
Proof.
  intros Hq. unfold mem_createFolder.
  destruct (v !! p) as [m|] eqn:Ep; [exact Hq|].
  destruct (existsb (is_file v) (ancestors p)) eqn:Ea; [exact Hq|].
  cbn. rewrite lookup_insert_ne by congruence. rewrite foldr_insert_folder.
  destruct (decide (q ∈ ancestors p)) as [Hin|Hin]; [|exact Hq].
  destruct n as [data|]; [|reflexivity]. exfalso.
  assert (existsb (is_file v) (ancestors p) = true) as Ht; [|congruence].
  apply existsb_exists. exists q. split.
  - now apply list_elem_of_In.
  - unfold is_file. now rewrite Hq.
Qed.

Lemma ensure_vault_keeps settings original (v : gmap string node) q n :
  v !! q = Some n -> ensure_vault settings original v !! q = Some n.
Proof.
  intros Hq. unfold ensure_vault. destruct (_ && _); [|exact Hq].
  now apply mem_createFolder_keeps.
Qed.

(** X26: on the in-memory host an invocation changes nothing but the
    artifact and the folders above it: every other entry of the vault
    stays as it is, and no file appears anywhere else. *)
Theorem other_entries_untouched (settings : Settings) (file : TFile) (w : World)
  (q : string) :
  q <> targetPath settings file ->
  (forall n, vault w !! q = Some n ->
             vault (snd (run MemHost (generateFlashcards settings file) w)) !! q = Some n) /\
  (forall data,
      vault (snd (run MemHost (generateFlashcards settings file) w)) !! q
      = Some (File data) ->
      vault w !! q = Some (File data)).
Proof.
  intros Hq. destruct (mem_generate settings file w) as [_ H]. cbv zeta in H.
  destruct (mem_prepare settings file w) as [o|clean].
  - destruct H as [_ ->]. split; intros; assumption.
  - destruct H as [-> _].
    assert (Hsame : snd (write_vault settings file clean
                           (ensure_vault settings file (vault w))) !! q
                    = ensure_vault settings file (vault w) !! q).
    { destruct (write_vault_cases settings file clean
                  (ensure_vault settings file (vault w))) as [[_ ->] | [_ ->]];
        [now rewrite lookup_insert_ne | reflexivity]. }
    rewrite Hsame. split.
    + intros n. apply ensure_vault_keeps.
    + intros data. apply ensure_vault_files.
Qed.

(** The witness of X26. *)
Lemma other_entries_untouched_witness :
  let settings := DEFAULT_SETTINGS "Make cards" in
  let file := tfile_of_path "Books/Fables.md" in
  let w := example_world (Ok {| progress := []; value := JString "Front :: Back" |}) in
  fst (run MemHost (generateFlashcards settings file) w) = Done /\
  vault (snd (run MemHost (generateFlashcards settings file) w)) !! "Books/Fables.md"
  = Some (File "The lion and the mouse").
Proof.
  intros settings file w. split; [vm_compute; reflexivity|].
  destruct (other_entries_untouched settings file w "Books/Fables.md") as [H _].
  - vm_compute. discriminate.
  - apply H. vm_compute. reflexivity.
Defined.

Lemma proper_prefixes_spec {A} (l pre : list A) :
  In pre (proper_prefixes l) ->
  pre <> [] /\ exists suf, suf <> [] /\ l = (pre ++ suf)%list.
Proof.
  revert pre. induction l as [|x l IH]; intros pre Hin; [destruct Hin|].
  cbn [proper_prefixes] in Hin. destruct l as [|y l]; [destruct Hin|].
  destruct Hin as [<- | Hin].
  - split; [discriminate|]. exists (y :: l). split; [discriminate | reflexivity].
  - apply in_map_iff in Hin as (pre' & <- & Hin).
    destruct (IH pre' Hin) as (_ & suf & Hs & ->).
    split; [discriminate|]. now exists suf.
Qed.

Lemma join_app (l1 l2 : list string) :
  l1 <> [] -> l2 <> [] ->
  join_slash (l1 ++ l2)%list = join_slash l1 ++ "/" ++ join_slash l2.
Proof.
  unfold join_slash. intros H1 H2. induction l1 as [|a l1 IH]; [now destruct H1|].
  destruct l1 as [|b l1].
  - cbn [app String.concat]. destruct l2; [now destruct H2 | reflexivity].
  - change ((a :: b :: l1) ++ l2)%list with (a :: (b :: l1) ++ l2)%list.
    change (String.concat "/" (a :: (b :: l1) ++ l2)%list)
      with (a ++ "/" ++ String.concat "/" ((b :: l1) ++ l2)%list).
    rewrite IH by discriminate.
    change (String.concat "/" (a :: b :: l1))
      with (a ++ "/" ++ String.concat "/" (b :: l1)).
    now rewrite !append_assoc.
Qed.

(** A path lies below each of its ancestors. *)
Lemma ancestor_above (p a : string) :
  In a (ancestors p) -> exists rest, p = a ++ "/" ++ rest.
Proof.
  unfold ancestors. intros Hin. apply in_map_iff in Hin as (pre & <- & Hin).
  destruct (proper_prefixes_spec _ _ Hin) as (Hpre & suf & Hsuf & Hsplit).
  exists (join_slash suf).
  rewrite <- (join_split p) at 1. rewrite Hsplit. now apply join_app.
Qed.

Lemma longer_differs (a rest : string) : a ++ "/" ++ rest <> a.
Proof.
  intros H. apply (f_equal String.length) in H.
  rewrite !length_append in H. cbn in H. lia.
Qed.

(** The destination is neither the folder ensured nor one above it. *)
Lemma destination_not_a_folder_above (settings : Settings) (original : TFile) (a : string) :
  In a (folderPath settings original :: ancestors (folderPath settings original)) ->
  targetPath settings original <> a.
Proof.
  rewrite (destination_splits settings original).
  intros [<- | Hin].
  - apply longer_differs.
  - destruct (ancestor_above _ _ Hin) as [rest ->].
    rewrite !append_assoc. apply longer_differs.
Qed.

(** X27: on the in-memory host the commit step succeeds whenever no file
    stands where a folder is needed and no folder stands at the
    destination: it creates the folders that are missing and leaves the
    composed text at the destination. *)
Theorem commit_succeeds_on_clear_path (settings : Settings) (original : TFile)
  (content : string) (w : World) :
  is_folder (vault w) (targetPath settings original) = false ->
  (forall a, In a (folderPath settings original
                   :: ancestors (folderPath settings original)) ->
             is_file (vault w) a = false) ->
  fst (run MemHost (saveFlashcards settings original content) w) = Ok tt /\
  vault (snd (run MemHost (saveFlashcards settings original content) w))
    !! targetPath settings original
  = Some (File (finalContent settings original content)) /\
  (folderPath settings original <> EmptyString ->
   vault (snd (run MemHost (saveFlashcards settings original content) w))
     !! folderPath settings original = Some Folder).
Proof.
  intros Htarget Hclear.
  destruct (mem_saveFlashcards settings original content w) as (Hr & Hv & _).
  cbv zeta in Hr, Hv. rewrite Hr, Hv. clear Hr Hv.
  set (v := vault w) in *.
  set (v' := ensure_vault settings original v).
  assert (Hfolder : folderPath settings original <> EmptyString ->
                    v' !! folderPath settings original = Some Folder).
  { intros Hne. subst v'. unfold ensure_vault, truthy.
    destruct (String.eqb (folderPath settings original) EmptyString) eqn:E.
    { apply String.eqb_eq in E. now destruct Hne. }
    cbn [negb andb].
    pose proof (Hclear _ (or_introl eq_refl)) as Hnf. unfold is_file in Hnf.
    destruct (v !! folderPath settings original) as [[data|]|] eqn:El.
    - discriminate Hnf.
    - rewrite bool_decide_true by eauto. cbn. exact El.
    - rewrite bool_decide_false by (intros [x Hx]; discriminate Hx). cbn [negb].
      unfold mem_createFolder. rewrite El.
      destruct (existsb (is_file v) (ancestors (folderPath settings original))) eqn:Ea.
      + apply existsb_exists in Ea as (a & Hin & Ha).
        rewrite (Hclear a (or_intror Hin)) in Ha. discriminate Ha.
      + cbn. apply lookup_insert_eq. }
  assert (Htarget' : is_folder v' (targetPath settings original) = false).
  { subst v'. unfold is_folder in *.
    destruct (v !! targetPath settings original) as [n|] eqn:El.
    - now rewrite (ensure_vault_keeps settings original v _ n El).
    - unfold ensure_vault. destruct (_ && _); [|now rewrite El].
      unfold mem_createFolder.
      destruct (v !! folderPath settings original); [cbn; now rewrite El|].
      destruct (existsb _ _); [cbn; now rewrite El|]. cbn.
      rewrite lookup_insert_ne
        by (intros E; now apply (destination_not_a_folder_above settings original _
                                    (or_introl eq_refl))).
      rewrite foldr_insert_folder.
      destruct (decide (targetPath settings original
                        ∈ ancestors (folderPath settings original))) as [Hin|Hin].
      + exfalso. apply list_elem_of_In in Hin.
        now apply (destination_not_a_folder_above settings original _ (or_intror Hin)).
      + now rewrite El. }
  assert (Hok : fst (write_vault settings original content v') = Ok tt).
  { unfold write_vault, mem_modify, mem_create, is_file. cbn [path tfile_of_path].
    unfold is_folder in Htarget'.
    destruct (v' !! targetPath settings original) as [[data|]|] eqn:El;
      rewrite ?El; [reflexivity | discriminate Htarget' |].
    change (dirname (targetPath settings original)) with (folderPath settings original).
    destruct (String.eqb (folderPath settings original) EmptyString) eqn:E;
      [reflexivity|].
    apply String.eqb_neq in E. unfold is_folder. now rewrite (Hfolder E). }
  split; [exact Hok|].
  destruct (write_vault_cases settings original content v') as [[_ ->] | [[err Herr] _]];
    [|congruence].
  split; [apply lookup_insert_eq|].
  intros Hne. rewrite lookup_insert_ne; [now apply Hfolder|].
  now apply (destination_not_a_folder_above settings original _ (or_introl eq_refl)).
Qed.

(** The witness of X27. *)
Lemma commit_succeeds_on_clear_path_witness :
  let settings := DEFAULT_SETTINGS "Make cards" in
  let file := tfile_of_path "Books/Fables.md" in
  let w := with_vault {[ "Books/Fables.md" := File "The lion and the mouse" ]}
             (example_world (Ok {| progress := []; value := JNull |})) in
  fst (run MemHost (saveFlashcards settings file "Front :: Back") w) = Ok tt /\
  vault (snd (run MemHost (saveFlashcards settings file "Front :: Back") w))
    !! "Flashcards/Books" = Some Folder.
Proof.
  intros settings file w.
  destruct (commit_succeeds_on_clear_path settings file "Front :: Back" w)
    as (Hok & _ & Hf).
  - reflexivity.
  - intros a [<- | [<- | []]]; reflexivity.
  - split; [exact Hok|]. apply Hf. discriminate.
Defined.

(** ** Instances of the branches *)

(** The witness of X14. *)
Lemma blank_note_skipped_witness :
  let settings := DEFAULT_SETTINGS "Make cards" in
  let file := tfile_of_path "Books/Empty.md" in
  let w := world_of {[ "Books/Empty.md" := File (" " ++ LF) ]}
             (Some {| providers := [ {| id := "p1"; name := "P1" |} ];
                      mainId := JUndefined |})
             (Throw (mkError "not installed"))
             (Ok {| progress := []; value := JString "Front :: Back" |}) in
  fst (run MemHost (generateFlashcards settings file) w) = Skipped /\
  omap generation_call (trace MemHost (generateFlashcards settings file) w) = [].
Proof.
  intros settings file w.
  destruct (blank_note_skipped MemHost w settings file (" " ++ LF)) as (Ho & Hg & _).
  - vm_compute. left. reflexivity.
  - reflexivity.
  - split; assumption.
Defined.

(** The witness of X15. *)
Lemma unreadable_note_fails_witness :
  let settings := DEFAULT_SETTINGS "Make cards" in
  let file := tfile_of_path "Books/Missing.md" in
  let w := example_world (Ok {| progress := []; value := JString "Front :: Back" |}) in
  let err := mkError "ENOENT: no such file or directory, open Books/Missing.md" in
  fst (run MemHost (generateFlashcards settings file) w) = Failed (Caught err) /\
  omap notice_text (trace MemHost (generateFlashcards settings file) w)
  = ["Failed to distill flashcards: ENOENT: no such file or directory, open Books/Missing.md"].
Proof.
  intros settings file w err.
  destruct (unreadable_note_fails MemHost w settings file err) as (Ho & _ & _ & Hn).
  - vm_compute. left. reflexivity.
  - split; [exact Ho | exact Hn].
Defined.

(** The witness of X16. *)
Lemma missing_service_is_unavailable_witness :
  let settings := DEFAULT_SETTINGS "Make cards" in
  let file := tfile_of_path "Books/Fables.md" in
  let w := world_of {[ "Books/Fables.md" := File "The lion and the mouse" ]}
             None (Throw (mkError "not installed"))
             (Ok {| progress := []; value := JString "Front :: Back" |}) in
  fst (run MemHost (generateFlashcards settings file) w) = Failed ProviderUnavailable /\
  omap generation_call (trace MemHost (generateFlashcards settings file) w) = [].
Proof.
  intros settings file w.
  destruct (missing_service_is_unavailable MemHost w settings file
              (mkError "not installed")) as (Ho & Hg & _).
  - vm_compute. left. reflexivity.
  - split; assumption.
Defined.

(** The witness of X17. *)
Lemma empty_provider_list_fails_witness :
  let settings := DEFAULT_SETTINGS "Make cards" in
  let file := tfile_of_path "Books/Fables.md" in
  let handle := {| providers := []; mainId := JString "main" |} in
  let w := world_of {[ "Books/Fables.md" := File "The lion and the mouse" ]}
             (Some handle) (Throw (mkError "not installed"))
             (Ok {| progress := []; value := JString "Front :: Back" |}) in
  fst (run MemHost (generateFlashcards settings file) w) = Failed NoProvider /\
  omap generation_call (trace MemHost (generateFlashcards settings file) w) = [].
Proof.
  intros settings file handle w.
  destruct (empty_provider_list_fails MemHost w settings file handle) as (Ho & Hg & _).
  - vm_compute. left. reflexivity.
  - reflexivity.
  - split; assumption.
Defined.

(** The witness of X18. *)
Lemma rejected_generation_fails_witness :
  let settings := DEFAULT_SETTINGS "Make cards" in
  let file := tfile_of_path "Books/Fables.md" in
  let w := example_world (Throw (mkError "request timed out")) in
  fst (run MemHost (generateFlashcards settings file) w)
  = Failed (Caught (mkError "request timed out")) /\
  vault (snd (run MemHost (generateFlashcards settings file) w))
    !! "Flashcards/Books/Fables.md" = Some (File "OLD").
Proof.
  intros settings file w.
  destruct (rejected_generation_fails MemHost w settings file
              (mkError "request timed out")) as (Ho & _).
  - vm_compute. left. reflexivity.
  - split; [exact Ho | vm_compute; reflexivity].
Defined.

(** The witness of X19. *)
Lemma noise_only_answer_fails_witness :
  let settings := DEFAULT_SETTINGS "Make cards" in
  let file := tfile_of_path "Books/Fables.md" in
  let answer := {| progress := []; value := JString "<think>nothing to keep</think>" |} in
  let w := example_world (Ok answer) in
  fst (run MemHost (generateFlashcards settings file) w) = Failed EmptyAfterSanitize /\
  vault (snd (run MemHost (generateFlashcards settings file) w))
    !! "Flashcards/Books/Fables.md" = Some (File "OLD").
Proof.
  intros settings file answer w.
  destruct (noise_only_answer_fails MemHost w settings file answer) as (Ho & _).
  - vm_compute. left. reflexivity.
  - reflexivity.
  - reflexivity.
  - split; [exact Ho | vm_compute; reflexivity].
Defined.

(** The witness of X20. *)
Lemma vault_touched_only_with_text_witness :
  let settings := DEFAULT_SETTINGS "Make cards" in
  let file := tfile_of_path "Books/Fables.md" in
  let w := example_world (Ok {| progress := ["Front"; "Front :: Back"];
                                value := JNull |}) in
  exists answer,
    In (Ok answer) (generation_replies (trace MemHost (generateFlashcards settings file) w)) /\
    blank (extractResponseText (value answer) (accumulated answer)) = false.
Proof.
  intros settings file w.
  destruct (vault_touched_only_with_text MemHost w settings file) as (answer & Hin & Hb & _).
  - vm_compute. reflexivity.
  - exists answer. split; assumption.
Defined.

(** The witness of X22. *)
Lemma exists_rejection_aborts_witness :
  let settings := DEFAULT_SETTINGS "Make cards" in
  let file := tfile_of_path "Books/Fables.md" in
  let w := example_world (Ok {| progress := []; value := JString "Front :: Back" |}) in
  fst (run BrokenStatHost (generateFlashcards settings file) w)
  = Failed (Caught stat_failure) /\
  writes (trace BrokenStatHost (generateFlashcards settings file) w) = [].
Proof.
  intros settings file w.
  destruct (exists_rejection_aborts BrokenStatHost w settings file stat_failure)
    as (Ho & _).
  - vm_compute. left. reflexivity.
  - split; [exact Ho | vm_compute; reflexivity].
Defined.
